(** * The folder server of mcp-server-suite: path confinement and file operations

    A shallow embedding of [src/file explore/basic_file_server.py]:
    [sanitize_path] and the four tools [file_read], [file_write],
    [file_delete] and [folder_analysis], together with the parts of
    Python's [str], [posixpath] and [os] they call.

    Conventions of the model.
    - A Python [str] is a [string]; its characters are the code points
      below 256, and a character of code 128 or more takes two bytes in
      UTF-8.
    - Paths follow [posixpath]: the separator is [/], and a backslash is an
      ordinary character of a name.
    - The file system is a tree of directories and regular files that hold
      UTF-8 text.  Permissions, undecodable files and other failures of the
      operating system are outside the model, and so are symbolic links,
      except in the separate link table of [realpath].
    - A tool runs in the monad [M]: it reads and updates a [world] (file
      system and the messages and progress ticks sent to the [Context]) and
      may raise an exception. *)

From Stdlib Require Import ZArith List String Ascii Bool Lia.
From Stdlib Require Import Numbers.DecimalString.
Import ListNotations.

Set Warnings "-register-all".

Local Open Scope string_scope.
Local Open Scope Z_scope.

(** ** Python strings *)

Module Py.

(** [s.startswith(p)] *)
Definition startswith (s p : string) : bool := String.prefix p s.

(** [s.endswith(c)] for a one-character [c] *)
Fixpoint endswith (s : string) (c : ascii) : bool :=
  match s with
  | EmptyString => false
  | String a EmptyString => Ascii.eqb a c
  | String _ s' => endswith s' c
  end.

(** [s.lstrip(c)] for a one-character [c] *)
Fixpoint lstrip (s : string) (c : ascii) : string :=
  match s with
  | String a s' => if Ascii.eqb a c then lstrip s' c else s
  | EmptyString => EmptyString
  end.

(** [s.rstrip(c)] for a one-character [c] *)
Fixpoint rstrip (s : string) (c : ascii) : string :=
  match s with
  | EmptyString => EmptyString
  | String a s' =>
      match rstrip s' c with
      | EmptyString => if Ascii.eqb a c then EmptyString else String a EmptyString
      | r => String a r
      end
  end.

(** [s.split(c)] for a one-character [c]: never the empty list *)
Fixpoint split (s : string) (c : ascii) : list string :=
  match s with
  | EmptyString => [EmptyString]
  | String a s' =>
      if Ascii.eqb a c then EmptyString :: split s' c
      else match split s' c with
           | [] => [String a EmptyString]
           | h :: t => String a h :: t
           end
  end.

(** [sep.join(l)] *)
Definition join (sep : string) (l : list string) : string := String.concat sep l.

(** [c in s] *)
Fixpoint contains (s : string) (c : ascii) : bool :=
  match s with
  | EmptyString => false
  | String a s' => Ascii.eqb a c || contains s' c
  end.

(** [c * n] *)
Fixpoint repeat (c : ascii) (n : nat) : string :=
  match n with
  | O => EmptyString
  | S n' => String c (repeat c n')
  end.

(** [str(n)] for an integer *)
Definition str (n : Z) : string := NilEmpty.string_of_int (Z.to_int n).

(** [len(s.encode('utf-8'))] *)
Definition utf8_width (a : ascii) : Z :=
  if (nat_of_ascii a <? 128)%nat then 1 else 2.

Fixpoint utf8_len (s : string) : Z :=
  match s with
  | EmptyString => 0
  | String a s' => utf8_width a + utf8_len s'
  end.

End Py.

(** ** posixpath *)

Module posixpath.

Definition sep : ascii := "/"%char.

Definition isabs (p : string) : bool := Py.startswith p "/".

(** [os.path.join(a, b)] *)
Definition join (a b : string) : string :=
  if Py.startswith b "/" then b
  else if String.eqb a "" || Py.endswith a sep then a ++ b
  else a ++ "/" ++ b.

(** One turn of the loop of [normpath] over the components. *)
Definition normpath_step (initial_slashes : nat) (new_comps : list string)
    (comp : string) : list string :=
  if String.eqb comp "" || String.eqb comp "." then new_comps
  else if negb (String.eqb comp "..")
          || (Nat.eqb initial_slashes 0 && Nat.eqb (List.length new_comps) 0)
          || (negb (Nat.eqb (List.length new_comps) 0)
              && String.eqb (List.last new_comps "") "..")
  then (new_comps ++ [comp])%list
  else List.removelast new_comps.

(** [os.path.normpath(path)] *)
Definition normpath (path : string) : string :=
  if String.eqb path "" then "."
  else
    let initial_slashes :=
      if Py.startswith path "/" then
        if Py.startswith path "//" && negb (Py.startswith path "///")
        then 2%nat else 1%nat
      else 0%nat in
    let new_comps :=
      fold_left (normpath_step initial_slashes) (Py.split path sep) [] in
    let path' := Py.repeat sep initial_slashes ++ Py.join "/" new_comps in
    if String.eqb path' "" then "." else path'.

(** [os.path.abspath(path)], in the working directory [cwd] *)
Definition abspath (cwd path : string) : string :=
  normpath (if isabs path then path else join cwd path).

(** [p[:p.rfind('/') + 1]] *)
Fixpoint upto_last_sep (p : string) : string :=
  match p with
  | EmptyString => EmptyString
  | String a p' =>
      if Py.contains p' sep then String a (upto_last_sep p')
      else if Ascii.eqb a sep then String a EmptyString
      else EmptyString
  end.

(** [os.path.dirname(p)] *)
Definition dirname (p : string) : string :=
  let head := upto_last_sep p in
  if negb (String.eqb head "")
     && negb (String.eqb head (Py.repeat sep (String.length head)))
  then Py.rstrip head sep else head.

(** The length of the common prefix of two lists of components. *)
Fixpoint commonprefix_len (l1 l2 : list string) : nat :=
  match l1, l2 with
  | a :: l1', b :: l2' =>
      if String.eqb a b then S (commonprefix_len l1' l2') else O
  | _, _ => O
  end.

Definition nonempty (s : string) : bool := negb (String.eqb s "").

(** [os.path.relpath(path, start)], for a non-empty [path] *)
Definition relpath (cwd path start : string) : string :=
  let start_list := filter nonempty (Py.split (abspath cwd start) sep) in
  let path_list := filter nonempty (Py.split (abspath cwd path) sep) in
  let i := commonprefix_len start_list path_list in
  let rel_list :=
    (List.repeat ".." (List.length start_list - i)%nat ++ skipn i path_list)%list in
  match rel_list with
  | [] => "."
  | a :: rest => fold_left join rest a
  end.

End posixpath.

(** ** Exceptions *)

Inductive exn : Type :=
| ValueError (msg : string)
| OSError (errno : Z) (strerror filename : string).

(** [str(e)] *)
Definition str_exn (e : exn) : string :=
  match e with
  | ValueError msg => msg
  | OSError errno strerror filename =>
      "[Errno " ++ Py.str errno ++ "] " ++ strerror ++ ": '" ++ filename ++ "'"
  end.

Definition result (A : Type) : Type := (exn + A)%type.

(** ** The file system

    A tree of directories and regular files.  The entries of a directory are
    kept in the order in which [os.scandir] lists them; an entry is found by
    the first occurrence of its name.  A regular file carries its time of
    last modification (an integer time stamp) and its text. *)

Inductive node : Type :=
| File (st_mtime : Z) (data : string)
| Dir (entries : list (string * node)).

Fixpoint find_entry (name : string) (es : list (string * node)) : option node :=
  match es with
  | [] => None
  | (k, n) :: es' => if String.eqb k name then Some n else find_entry name es'
  end.

Fixpoint set_entry (name : string) (v : node) (es : list (string * node))
  : list (string * node) :=
  match es with
  | [] => [(name, v)]
  | (k, n) :: es' =>
      if String.eqb k name then (k, v) :: es' else (k, n) :: set_entry name v es'
  end.

Fixpoint remove_entry (name : string) (es : list (string * node))
  : list (string * node) :=
  match es with
  | [] => []
  | (k, n) :: es' =>
      if String.eqb k name then es' else (k, n) :: remove_entry name es'
  end.

(** The names the operating system walks through to resolve a path.  Every
    path the server hands to the operating system is absolute and free of
    [.] and [..]: it is [sanitize_path]'s result, or that result joined with
    names of directory entries. *)
Definition path_components (p : string) : list string :=
  filter posixpath.nonempty (Py.split p posixpath.sep).

Definition path_of (comps : list string) : string := "/" ++ Py.join "/" comps.

Fixpoint lookup (n : node) (comps : list string) : option node :=
  match comps with
  | [] => Some n
  | c :: cs =>
      match n with
      | File _ _ => None
      | Dir es =>
          match find_entry c es with
          | Some n' => lookup n' cs
          | None => None
          end
      end
  end.

Definition fs_lookup (root : node) (p : string) : option node :=
  lookup root (path_components p).

(** The effect of [os.makedirs(name, exist_ok=True)] below [n]: the missing
    directories of the chain [comps] are created; a regular file in the
    chain makes [mkdir] fail, and nothing has been created by then. *)
Fixpoint makedirs_in (name : string) (here : list string) (n : node)
    (comps : list string) : result node :=
  match n with
  | File _ _ =>
      inl (match comps with
           | [] => OSError 17 "File exists" name
           | c :: _ => OSError 20 "Not a directory" (path_of (here ++ [c]))
           end)
  | Dir es =>
      match comps with
      | [] => inr n
      | c :: cs =>
          let child :=
            match find_entry c es with Some n' => n' | None => Dir [] end in
          match makedirs_in name (here ++ [c]) child cs with
          | inr child' => inr (Dir (set_entry c child' es))
          | inl e => inl e
          end
      end
  end.

(** The effect of [open(name, 'w')], [f.write(data)] and closing the file:
    the file is created in its directory, or its text is replaced. *)
Fixpoint write_in (name : string) (now : Z) (data : string) (n : node)
    (comps : list string) : result node :=
  match comps with
  | [] =>
      match n with
      | Dir _ => inl (OSError 21 "Is a directory" name)
      | File _ _ => inr (File now data)
      end
  | c :: cs =>
      match n with
      | File _ _ => inl (OSError 20 "Not a directory" name)
      | Dir es =>
          match find_entry c es with
          | Some n' =>
              match write_in name now data n' cs with
              | inr n'' => inr (Dir (set_entry c n'' es))
              | inl e => inl e
              end
          | None =>
              match cs with
              | [] => inr (Dir (set_entry c (File now data) es))
              | _ :: _ => inl (OSError 2 "No such file or directory" name)
              end
          end
      end
  end.

(** The effect of [os.remove(name)]. *)
Fixpoint remove_in (name : string) (n : node) (comps : list string) : result node :=
  match comps with
  | [] => inl (OSError 21 "Is a directory" name)
  | c :: cs =>
      match n with
      | File _ _ => inl (OSError 20 "Not a directory" name)
      | Dir es =>
          match find_entry c es with
          | None => inl (OSError 2 "No such file or directory" name)
          | Some n' =>
              match cs with
              | [] =>
                  match n' with
                  | Dir _ => inl (OSError 21 "Is a directory" name)
                  | File _ _ => inr (Dir (remove_entry c es))
                  end
              | _ :: _ =>
                  match remove_in name n' cs with
                  | inr n'' => inr (Dir (set_entry c n'' es))
                  | inl e => inl e
                  end
              end
          end
      end
  end.

Definition is_dir (n : node) : bool :=
  match n with Dir _ => true | File _ _ => false end.

Definition dirnames (es : list (string * node)) : list string :=
  map fst (filter (fun e => is_dir (snd e)) es).

Definition filenames (es : list (string * node)) : list string :=
  map fst (filter (fun e => negb (is_dir (snd e))) es).

(** What [os.walk(top)] yields, top-down, when [n] is the node at [top]: a
    triple for the directory itself, then the walks of its subdirectories
    in the order of its entries. *)
Fixpoint walk_node (top : string) (n : node)
  : list (string * list string * list string) :=
  match n with
  | File _ _ => []
  | Dir es =>
      (top, dirnames es, filenames es)
      :: flat_map (fun e => walk_node (posixpath.join top (fst e)) (snd e)) es
  end.

(** Text mode on reading ([newline=None]): a carriage return, alone or
    followed by a line feed, is read as one line feed. *)
Fixpoint universal_newlines (s : string) : string :=
  match s with
  | EmptyString => EmptyString
  | String a s' =>
      if Ascii.eqb a "013" then
        match s' with
        | String b s'' =>
            if Ascii.eqb b "010" then String "010" (universal_newlines s'')
            else String "010" (universal_newlines s')
        | EmptyString => String "010" EmptyString
        end
      else String a (universal_newlines s')
  end.

(** ** The world of a tool call, and the monad of the tools *)

Inductive event : Type :=
| LogInfo (msg : string)
| LogError (msg : string)
| Progress (progress total : Z).

Record world : Type := mkWorld {
  fs : node;          (* the root directory [/] *)
  clock : Z;          (* the time stamp a write gives to a file *)
  log : list event    (* what the [Context] has received, oldest first *)
}.

Definition M (A : Type) : Type := world -> result A * world.

Definition ret {A} (a : A) : M A := fun w => (inr a, w).

Definition bind {A B} (m : M A) (k : A -> M B) : M B :=
  fun w =>
    match m w with
    | (inr a, w') => k a w'
    | (inl e, w') => (inl e, w')
    end.

Definition raise {A} (e : exn) : M A := fun w => (inl e, w).

(** [try: body except Exception as e: handler(e)] *)
Definition try_except {A} (body : M A) (handler : exn -> M A) : M A :=
  fun w =>
    match body w with
    | (inr a, w') => (inr a, w')
    | (inl e, w') => handler e w'
    end.

Definition lift {A} (r : result A) : M A := fun w => (r, w).

Declare Scope monad_scope.
Delimit Scope monad_scope with monad.
Notation "x <- m ;; k" := (bind m (fun x => k))
  (at level 61, m at next level, right associativity) : monad_scope.
Notation "m ;; k" := (bind m (fun _ => k))
  (at level 61, right associativity) : monad_scope.
Local Open Scope monad_scope.

Definition emit (e : event) : M unit :=
  fun w => (inr tt, mkWorld (fs w) (clock w) (log w ++ [e])).

Definition ctx_info (msg : string) : M unit := emit (LogInfo msg).
Definition ctx_error (msg : string) : M unit := emit (LogError msg).
Definition report_progress (progress total : Z) : M unit :=
  emit (Progress progress total).

Definition os_path_exists (p : string) : M bool :=
  fun w => (inr (match fs_lookup (fs w) p with Some _ => true | None => false end), w).

Definition os_path_isfile (p : string) : M bool :=
  fun w => (inr (match fs_lookup (fs w) p with
                 | Some (File _ _) => true
                 | _ => false
                 end), w).

Definition os_path_isdir (p : string) : M bool :=
  fun w => (inr (match fs_lookup (fs w) p with
                 | Some (Dir _) => true
                 | _ => false
                 end), w).

(** [os.path.getsize]: the number of bytes of a regular file.  No tool asks
    for the size of a directory; the model gives 0 there. *)
Definition os_path_getsize (p : string) : M Z :=
  fun w =>
    match fs_lookup (fs w) p with
    | Some (File _ data) => (inr (Py.utf8_len data), w)
    | Some (Dir _) => (inr 0, w)
    | None => (inl (OSError 2 "No such file or directory" p), w)
    end.

Definition os_path_getmtime (p : string) : M Z :=
  fun w =>
    match fs_lookup (fs w) p with
    | Some (File t _) => (inr t, w)
    | Some (Dir _) => (inr 0, w)
    | None => (inl (OSError 2 "No such file or directory" p), w)
    end.

Definition os_makedirs (name : string) : M unit :=
  fun w =>
    match makedirs_in name [] (fs w) (path_components name) with
    | inr root' => (inr tt, mkWorld root' (clock w) (log w))
    | inl e => (inl e, w)
    end.

(** [with open(name, 'w', encoding='utf-8') as f: f.write(data)] *)
Definition open_write (name data : string) : M unit :=
  fun w =>
    match write_in name (clock w) data (fs w) (path_components name) with
    | inr root' => (inr tt, mkWorld root' (clock w) (log w))
    | inl e => (inl e, w)
    end.

(** [with open(name, 'r', encoding='utf-8') as f: content = f.read()] *)
Definition open_read (name : string) : M string :=
  fun w =>
    match fs_lookup (fs w) name with
    | Some (File _ data) => (inr (universal_newlines data), w)
    | Some (Dir _) => (inl (OSError 21 "Is a directory" name), w)
    | None => (inl (OSError 2 "No such file or directory" name), w)
    end.

Definition os_remove (name : string) : M unit :=
  fun w =>
    match remove_in name (fs w) (path_components name) with
    | inr root' => (inr tt, mkWorld root' (clock w) (log w))
    | inl e => (inl e, w)
    end.

(** [os.walk(top)]: nothing is yielded when [top] cannot be listed. *)
Definition os_walk (top : string) : M (list (string * list string * list string)) :=
  fun w =>
    (inr (match fs_lookup (fs w) top with
          | Some n => walk_node top n
          | None => []
          end), w).

(** [for x in l: s = body(x, s)] *)
Fixpoint for_each {A S} (l : list A) (body : A -> S -> M S) (s : S) : M S :=
  match l with
  | [] => ret s
  | a :: l' => s' <- body a s ;; for_each l' body s'
  end.

(** [enumerate(l)] *)
Definition enumerate {A} (l : list A) : list (nat * A) :=
  combine (seq 0 (List.length l)) l.

(** ** JSON values: the dictionaries the tools hand to [json.dumps] *)

Inductive json : Type :=
| JNull
| JBool (b : bool)
| JInt (n : Z)
| JStr (s : string)
| JList (l : list json)
| JObj (fields : list (string * json)).

Fixpoint get_field (key : string) (fields : list (string * json)) : option json :=
  match fields with
  | [] => None
  | (k, v) :: rest => if String.eqb k key then Some v else get_field key rest
  end.

Definition field (key : string) (j : json) : option json :=
  match j with
  | JObj fields => get_field key fields
  | _ => None
  end.

Definition error_json (msg : string) : json :=
  JObj [("status", JStr "error"); ("message", JStr msg)].

(** ** The requests *)

Record FileOperation : Type := mkFileOperation {
  path : string;
  content : option string
}.

Record FolderAnalysis : Type := mkFolderAnalysis {
  folder_path : string
}.

(** ** The path check *)

Section Server.

(** The configuration: [ALLOWED_BASE_PATH] after [Path(...).resolve()], and
    the working directory of the process. *)
Variable ALLOWED_BASE_PATH : string.
Variable cwd : string.

Definition MAX_FILE_SIZE : Z := 10 * 1024 * 1024.

Definition sanitize_path (path : string) : result string :=
  let full_path :=
    posixpath.abspath cwd
      (posixpath.join ALLOWED_BASE_PATH
         (Py.lstrip (Py.lstrip path "/") "\")) in
  if negb (Py.startswith full_path ALLOWED_BASE_PATH)
  then inl (ValueError "Access outside allowed directory")
  else inr full_path.

(** *** file_read *)

Definition file_read (op : FileOperation) : M json :=
  ctx_info ("Attempting to read file: " ++ path op) ;;
  try_except
    (safe_path <- lift (sanitize_path (path op)) ;;
     ex <- os_path_exists safe_path ;;
     if negb ex then
       ctx_error ("File not found: " ++ path op) ;;
       ret (error_json "File not found")
     else
       isf <- os_path_isfile safe_path ;;
       if negb isf then
         ctx_error ("Path is not a file: " ++ path op) ;;
         ret (error_json "Path is not a file")
       else
         file_size <- os_path_getsize safe_path ;;
         if file_size >? MAX_FILE_SIZE then
           ctx_error ("File too large: " ++ Py.str file_size ++ " bytes") ;;
           ret (error_json "File too large")
         else
           report_progress 50 100 ;;
           content <- open_read safe_path ;;
           report_progress 100 100 ;;
           ret (JObj [("status", JStr "success");
                      ("path", JStr (path op));
                      ("content", JStr content)]))
    (fun e =>
       ctx_error ("LogError reading file " ++ path op ++ ": " ++ str_exn e) ;;
       ret (error_json (str_exn e))).

(** *** file_write *)

(** [not op.content]: the content is [None] or the empty string. *)
Definition not_content (c : option string) : bool :=
  match c with
  | None => true
  | Some s => String.eqb s ""
  end.

Definition file_write (op : FileOperation) : M json :=
  ctx_info ("Attempting to write file: " ++ path op) ;;
  try_except
    (if not_content (content op) then
       ctx_error "Content is required for file write" ;;
       ret (error_json "Content is required")
     else
       safe_path <- lift (sanitize_path (path op)) ;;
       os_makedirs (posixpath.dirname safe_path) ;;
       report_progress 50 100 ;;
       open_write safe_path (match content op with Some s => s | None => "" end) ;;
       report_progress 100 100 ;;
       ret (JObj [("status", JStr "success");
                  ("path", JStr (path op));
                  ("message", JStr "File written successfully")]))
    (fun e =>
       ctx_error ("LogError writing file " ++ path op ++ ": " ++ str_exn e) ;;
       ret (error_json (str_exn e))).

(** *** file_delete *)

Definition file_delete (op : FileOperation) : M json :=
  ctx_info ("Attempting to delete file: " ++ path op) ;;
  try_except
    (safe_path <- lift (sanitize_path (path op)) ;;
     ex <- os_path_exists safe_path ;;
     if negb ex then
       ctx_error ("File not found: " ++ path op) ;;
       ret (error_json "File not found")
     else
       isf <- os_path_isfile safe_path ;;
       if negb isf then
         ctx_error ("Path is not a file: " ++ path op) ;;
         ret (error_json "Path is not a file")
       else
         report_progress 50 100 ;;
         os_remove safe_path ;;
         report_progress 100 100 ;;
         ret (JObj [("status", JStr "success");
                    ("path", JStr (path op));
                    ("message", JStr "File deleted successfully")]))
    (fun e =>
       ctx_error ("LogError deleting file " ++ path op ++ ": " ++ str_exn e) ;;
       ret (error_json (str_exn e))).

(** *** folder_analysis *)

(** The three variables the traversal updates. *)
Record totals : Type := mkTotals {
  files : list json;
  total_size : Z;
  file_count : Z
}.

(** The body of the inner loop, for the file number [i] of the
    [filenames] of the directory [root]. *)
Definition analyse_file (root : string) (filenames : list string)
    (entry : nat * string) (acc : totals) : M totals :=
  let (i, filename) := entry in
  let file_path := posixpath.join root filename in
  file_size <- os_path_getsize file_path ;;
  modified <- os_path_getmtime file_path ;;
  let acc' :=
    mkTotals
      (files acc ++
         [JObj [("name", JStr filename);
                ("path", JStr (posixpath.relpath cwd file_path ALLOWED_BASE_PATH));
                ("size", JInt file_size);
                ("modified", JInt modified)]])
      (total_size acc + file_size)
      (file_count acc + 1) in
  (if (Z.of_nat i + 1) mod 10 =? 0 then
     report_progress
       (Z.min 90 ((Z.of_nat i + 1) * 90 / Z.of_nat (List.length filenames))) 100
   else ret tt) ;;
  ret acc'.

(** The body of the outer loop, for one triple of [os.walk]. *)
Definition analyse_level (level : string * list string * list string)
    (acc : totals) : M totals :=
  let '(root, _, filenames) := level in
  for_each (enumerate filenames) (analyse_file root filenames) acc.

Definition folder_analysis (folder : FolderAnalysis) : M json :=
  ctx_info ("Analyzing folder: " ++ folder_path folder) ;;
  try_except
    (safe_path <- lift (sanitize_path (folder_path folder)) ;;
     ex <- os_path_exists safe_path ;;
     if negb ex then
       ctx_error ("Folder not found: " ++ folder_path folder) ;;
       ret (error_json "Folder not found")
     else
       isd <- os_path_isdir safe_path ;;
       if negb isd then
         ctx_error ("Path is not a directory: " ++ folder_path folder) ;;
         ret (error_json "Path is not a directory")
       else
         report_progress 0 100 ;;
         levels <- os_walk safe_path ;;
         acc <- for_each levels analyse_level (mkTotals [] 0 0) ;;
         report_progress 100 100 ;;
         ret (JObj [("status", JStr "success");
                    ("path", JStr (folder_path folder));
                    ("file_count", JInt (file_count acc));
                    ("total_size", JInt (total_size acc));
                    ("files", JList (firstn 50 (files acc)));
                    ("message", JStr "Folder analysis completed")]))
    (fun e =>
       ctx_error ("LogError analyzing folder " ++ folder_path folder ++ ": " ++ str_exn e) ;;
       ret (error_json (str_exn e))).

End Server.

(** ** The notions the specification speaks of *)

(** [l1] is a prefix of [l2], component by component. *)
Fixpoint is_prefix_of (l1 l2 : list string) : bool :=
  match l1, l2 with
  | [], _ => true
  | a :: l1', b :: l2' => String.eqb a b && is_prefix_of l1' l2'
  | _ :: _, [] => false
  end.

(** A path lies within the root when the root's components are a prefix of
    the path's components. *)
Definition within (root p : string) : bool :=
  is_prefix_of (path_components root) (path_components p).

(** Symbolic links, for the statement about them: a table from the
    components of a link to the components of its (absolute) target. *)
Definition link_table : Type := list (list string * list string).

Fixpoint find_link (l : list string) (links : link_table) : option (list string) :=
  match links with
  | [] => None
  | (k, target) :: rest =>
      if list_eq_dec string_dec k l then Some target else find_link l rest
  end.

(** One pass over the components: the first link met is replaced by its
    target, and [None] tells that no link was met. *)
Fixpoint expand_link (links : link_table) (done todo : list string)
  : option (list string) :=
  match todo with
  | [] => None
  | c :: rest =>
      match find_link (done ++ [c])%list links with
      | Some target => Some (target ++ rest)%list
      | None => expand_link links (done ++ [c])%list rest
      end
  end.

(** The real location of a path: links are expanded until none is left;
    [None] when [fuel] expansions do not suffice (a loop of links). *)
Fixpoint realpath (links : link_table) (fuel : nat) (comps : list string)
  : option (list string) :=
  match expand_link links [] comps with
  | None => Some comps
  | Some comps' =>
      match fuel with
      | O => None
      | S fuel' => realpath links fuel' comps'
      end
  end.

Definition sumZ (l : list Z) : Z := fold_right Z.add 0 l.

(** The number of regular files of a tree, and the sum of their sizes. *)
Fixpoint count_files (n : node) : Z :=
  match n with
  | File _ _ => 1
  | Dir es => sumZ (map (fun e => count_files (snd e)) es)
  end.

Fixpoint total_bytes (n : node) : Z :=
  match n with
  | File _ data => Py.utf8_len data
  | Dir es => sumZ (map (fun e => total_bytes (snd e)) es)
  end.

(** The names of a directory are non-empty, free of [/] and pairwise
    distinct, in the whole tree. *)
Definition valid_name (name : string) : bool :=
  posixpath.nonempty name && negb (Py.contains name posixpath.sep).

Fixpoint distinct (l : list string) : bool :=
  match l with
  | [] => true
  | a :: l' => negb (existsb (String.eqb a) l') && distinct l'
  end.

Fixpoint wf_node (n : node) : bool :=
  match n with
  | File _ _ => true
  | Dir es =>
      forallb (fun e => valid_name (fst e)) es
      && distinct (map fst es)
      && forallb (fun e => wf_node (snd e)) es
  end.

(** The progress values among the events, oldest first. *)
Definition progress_values (evs : list event) : list Z :=
  flat_map (fun e => match e with Progress p _ => [p] | _ => [] end) evs.

Fixpoint nondecreasing (l : list Z) : bool :=
  match l with
  | a :: (b :: _) as l' => (a <=? b) && nondecreasing l'
  | _ => true
  end.

(** The events of a call: what it appended to the log. *)
Definition emitted (w : world) (evs : list event) : world :=
  mkWorld (fs w) (clock w) (log w ++ evs).

Definition success_read (p c : string) : json :=
  JObj [("status", JStr "success"); ("path", JStr p); ("content", JStr c)].

Definition CR : ascii := "013"%char.

(** A component as [normpath] keeps it under a leading slash, and the
    weaker property of being neither [.] nor [..]. *)
Definition plain (c : string) : Prop :=
  Py.contains c posixpath.sep = false /\ c <> "" /\ c <> "." /\ c <> "..".

Definition no_dots (c : string) : Prop := c <> "." /\ c <> "..".

(** A root directory [/allowed] with the single file [big.txt]. *)
Definition limit_world (data : string) : world :=
  mkWorld (Dir [("allowed", Dir [("big.txt", File 0 data)])]) 0 [].

(** *** The traversal as a function of the tree

    What the two loops of [folder_analysis] compute, written by recursion
    on the tree; the lemmas on the two loops prove that they compute it. *)

Definition node_size (n : node) : Z :=
  match n with File _ data => Py.utf8_len data | Dir _ => 0 end.

Definition node_mtime (n : node) : Z :=
  match n with File t _ => t | Dir _ => 0 end.

Definition file_entries (es : list (string * node)) : list (string * node) :=
  filter (fun e => negb (is_dir (snd e))) es.

Section Traversal.

Variables root cwd : string.

(** The dictionary appended for the entry [e] of the directory [top]. *)
Definition file_json (top : string) (e : string * node) : json :=
  JObj [("name", JStr (fst e));
        ("path", JStr (posixpath.relpath cwd (posixpath.join top (fst e)) root));
        ("size", JInt (node_size (snd e)));
        ("modified", JInt (node_mtime (snd e)))].

Definition add_totals (a b : totals) : totals :=
  mkTotals (files a ++ files b) (total_size a + total_size b)
    (file_count a + file_count b).

Definition no_totals : totals := mkTotals [] 0 0.

(** One directory: its files, in the order of its entries. *)
Definition level_totals (top : string) (fes : list (string * node)) : totals :=
  mkTotals (map (file_json top) fes)
    (sumZ (map (fun e => node_size (snd e)) fes))
    (Z.of_nat (List.length fes)).

(** The whole walk below [top]: the directory itself, then its
    subdirectories in the order of its entries. *)
Fixpoint walk_totals (top : string) (n : node) : totals :=
  match n with
  | File _ _ => no_totals
  | Dir es =>
      add_totals (level_totals top (file_entries es))
        (fold_right
           (fun e rest =>
              add_totals (walk_totals (posixpath.join top (fst e)) (snd e)) rest)
           no_totals es)
  end.

End Traversal.

(** The progress reported after the file number [i] of a directory of
    [total] files. *)
Definition tick (total i : nat) : list event :=
  if (Z.of_nat i + 1) mod 10 =? 0
  then [Progress (Z.min 90 ((Z.of_nat i + 1) * 90 / Z.of_nat total)) 100]
  else [].

(** The progress reported for the files number [k] to [k + n - 1]. *)
Definition level_events (total k n : nat) : list event :=
  flat_map (tick total) (seq k n).

Fixpoint walk_events (n : node) : list event :=
  match n with
  | File _ _ => []
  | Dir es =>
      let total := List.length (file_entries es) in
      (level_events total 0 total ++ flat_map (fun e => walk_events (snd e)) es)%list
  end.

(** The progress values of the walk, directory by directory. *)
Fixpoint walk_ticks (n : node) : list (list Z) :=
  match n with
  | File _ _ => []
  | Dir es =>
      let total := List.length (file_entries es) in
      progress_values (level_events total 0 total)
      :: flat_map (fun e => walk_ticks (snd e)) es
  end.

Definition tick_value (total i : nat) : Z :=
  Z.min 90 ((Z.of_nat i + 1) * 90 / Z.of_nat total).

(** The progress values of one directory: they never decrease and lie
    between 0 and 90. *)
Definition level_ok (l : list Z) : Prop :=
  nondecreasing l = true /\ Forall (fun v => 0 <= v <= 90) l.

(** [n] one-byte files [f0], [f1], ... *)
Definition numbered (n : nat) : list (string * node) :=
  map (fun i => ("f" ++ Py.str (Z.of_nat i), File 0 "x")) (seq 0 n).

(** The scenario of the specification: a directory of 60 one-byte files. *)
Definition sixty_files : world :=
  mkWorld (Dir [("sandbox", Dir [("notes", Dir (numbered 60))])]) 0 [].

(** A directory of 10 files with a subdirectory of 20 files. *)
Definition two_levels : world :=
  mkWorld (Dir [("allowed", Dir (numbered 10 ++ [("sub", Dir (numbered 20))]))]) 0 [].

(** The number of directories of a tree, itself included. *)
Fixpoint count_dirs (n : node) : nat :=
  match n with
  | File _ _ => 0
  | Dir es => S (list_sum (map (fun e => count_dirs (snd e)) es))
  end.

(** *** The statements of the specification that the code does not meet *)

(** A path that leaves the root through a link inside the root is
    refused. *)
Definition spec_symlink_escape_refused : Prop :=
  forall (root cwd path safe : string) (links : link_table) (fuel : nat)
         (real : list string),
    sanitize_path root cwd path = inr safe ->
    realpath links fuel (path_components safe) = Some real ->
    is_prefix_of (path_components root) real = true.

(** Writing [c] to a confined [p] and reading [p] returns [c]. *)
Definition spec_round_trip : Prop :=
  forall (root cwd p c safe : string) (w : world),
    Py.utf8_len c <= MAX_FILE_SIZE ->
    sanitize_path root cwd p = inr safe ->
    within root safe = true ->
    let w' := snd (file_write root cwd (mkFileOperation p (Some c)) w) in
    fst (file_read root cwd (mkFileOperation p None) w') = inr (success_read p c).

(** The result of an analysis carries [truncated = file_count > 50]. *)
Definition spec_truncated_flag : Prop :=
  forall (root cwd : string) (folder : FolderAnalysis) (w : world) (j : json) (n : Z),
    fst (folder_analysis root cwd folder w) = inr j ->
    field "file_count" j = Some (JInt n) ->
    field "truncated" j = Some (JBool (n >? 50)).

(** The progress values of one analysis never decrease. *)
Definition spec_progress_monotone : Prop :=
  forall (root cwd : string) (folder : FolderAnalysis) (w : world),
    log w = [] ->
    nondecreasing
      (progress_values (log (snd (folder_analysis root cwd folder w)))) = true.

(** *** Results of the tools *)

Definition refused : json := error_json "Access outside allowed directory".

Definition success_write (p : string) : json :=
  JObj [("status", JStr "success"); ("path", JStr p);
        ("message", JStr "File written successfully")].

Definition success_delete (p : string) : json :=
  JObj [("status", JStr "success"); ("path", JStr p);
        ("message", JStr "File deleted successfully")].

Definition is_error (j : json) : Prop := field "status" j = Some (JStr "error").

Definition is_success (j : json) : Prop := field "status" j = Some (JStr "success").

(** A call that went from the world [w] to the result and world [r] has
    returned a dictionary, and if its status is "error" it has sent an error
    message to the context. *)
Definition reports (r : result json * world) (w : world) : Prop :=
  exists j,
    fst r = inr j
    /\ (is_success j
        \/ (is_error j
            /\ exists evs msg, log (snd r) = (log w ++ evs)%list
                               /\ In (LogError msg) evs)).

(** A root directory [/allowed] with the files [a.txt] and [b.txt] and the
    directory [notes]. *)
Definition small_world : world :=
  mkWorld
    (Dir [("allowed",
           Dir [("a.txt", File 1 "alpha"); ("b.txt", File 2 "beta");
                ("notes", Dir [])])])
    9 [].

(** * Properties *)

#[local] Arguments String.append : simpl never.
#[local] Arguments Z.gtb : simpl never.
#[local] Arguments Z.eqb : simpl never.
#[local] Arguments Z.modulo : simpl never.
#[local] Arguments Z.div : simpl never.
#[local] Arguments Z.mul : simpl never.
#[local] Arguments Z.add : simpl never.
#[local] Arguments Z.min : simpl never.
#[local] Arguments Py.str : simpl never.
#[local] Arguments posixpath.join : simpl never.
#[local] Arguments posixpath.relpath : simpl never.
#[local] Arguments posixpath.dirname : simpl never.

Ltac unfold_tool :=
  unfold file_read, file_write, file_delete, folder_analysis,
    try_except, bind, ret, lift, raise,
    ctx_info, ctx_error, report_progress, emit,
    os_path_exists, os_path_isfile, os_path_isdir, os_path_getsize,
    os_path_getmtime, open_read, open_write, os_makedirs, os_remove, os_walk.

(** ** The path check admits a sibling of the root *)

(** C1. With the root [/allowed], the input [../allowed-2/secret.txt]
    resolves to [/allowed-2/secret.txt], which is not within the root
    component by component; [sanitize_path] compares strings and returns
    it. *)
Theorem sanitize_path_admits_sibling :
  sanitize_path "/allowed" "/" "../allowed-2/secret.txt"
    = inr "/allowed-2/secret.txt"
  /\ within "/allowed" "/allowed-2/secret.txt" = false
  /\ Py.startswith "/allowed-2/secret.txt" "/allowed" = true.
Proof. repeat split; vm_compute; reflexivity. Qed.

(** C2. An input with [..] segments, and an input that overrides the join
    with an absolute path behind a backslash, both resolve outside the root
    [/srv/data] and are returned; after the two [lstrip]s the second input
    still begins with a separator. *)
Theorem sanitize_path_admits_traversal :
  sanitize_path "/srv/data" "/" "reports/../../data.bak/dump.sql"
    = inr "/srv/data.bak/dump.sql"
  /\ within "/srv/data" "/srv/data.bak/dump.sql" = false
  /\ Py.lstrip (Py.lstrip "\/srv/data.bak/dump.sql" "/") "\" = "/srv/data.bak/dump.sql"
  /\ sanitize_path "/srv/data" "/" "\/srv/data.bak/dump.sql"
       = inr "/srv/data.bak/dump.sql".
Proof. repeat split. Qed.

(** Elsewhere the check refuses what leaves the root. *)
Example sanitize_path_refuses_parent :
  sanitize_path "/allowed" "/" "../etc/passwd"
    = inl (ValueError "Access outside allowed directory")
  /\ sanitize_path "/allowed" "/" "\/etc/passwd"
       = inl (ValueError "Access outside allowed directory")
  /\ sanitize_path "/allowed" "/" "/etc/passwd" = inr "/allowed/etc/passwd"
  /\ sanitize_path "/allowed" "/" "///notes/./x/../a.txt"
       = inr "/allowed/notes/a.txt".
Proof. repeat split. Qed.

(** ** The path check is lexical *)

Lemma split_not_nil (s : string) (c : ascii) : Py.split s c <> [].
Proof.
  destruct s as [|a s]; simpl; [discriminate|].
  destruct (Ascii.eqb a c); [discriminate|].
  destruct (Py.split s c); discriminate.
Qed.

Lemma split_no_sep (s : string) (c : ascii) :
  Forall (fun x => Py.contains x c = false) (Py.split s c).
Proof.
  induction s as [|a s IH]; simpl.
  - repeat constructor.
  - destruct (Ascii.eqb a c) eqn:E.
    + constructor; [reflexivity | exact IH].
    + destruct (Py.split s c) as [|h t].
      * repeat constructor. simpl. now rewrite E.
      * inversion IH as [|? ? Hh Ht]; subst.
        constructor; [|exact Ht]. simpl. now rewrite E.
Qed.

Lemma split_single (s : string) (c : ascii) :
  Py.contains s c = false -> Py.split s c = [s].
Proof.
  induction s as [|a s IH]; simpl; intros H.
  - reflexivity.
  - apply orb_false_iff in H as [Ha Hs]. rewrite Ha, (IH Hs). reflexivity.
Qed.

Lemma split_app_sep (x r : string) (c : ascii) :
  Py.contains x c = false ->
  Py.split (x ++ String c r) c = x :: Py.split r c.
Proof.
  induction x as [|a x IH]; intros H.
  - simpl. now rewrite Ascii.eqb_refl.
  - simpl in H. apply orb_false_iff in H as [Ha Hx].
    change (String a x ++ String c r) with (String a (x ++ String c r)).
    simpl. rewrite Ha, (IH Hx). reflexivity.
Qed.

Lemma split_join (comps : list string) :
  comps <> [] ->
  Forall (fun x => Py.contains x posixpath.sep = false) comps ->
  Py.split (Py.join "/" comps) posixpath.sep = comps.
Proof.
  induction comps as [|x comps IH]; intros Hne H; [congruence|].
  inversion H as [|? ? Hx Hrest]; subst.
  destruct comps as [|y comps].
  - simpl. now apply split_single.
  - change (Py.join "/" (x :: y :: comps))
      with (x ++ String posixpath.sep (Py.join "/" (y :: comps))).
    rewrite (split_app_sep _ _ _ Hx). f_equal. apply IH; [discriminate | exact Hrest].
Qed.

Lemma last_In {A} (l : list A) (d : A) : l <> [] -> In (last l d) l.
Proof.
  induction l as [|a l IH]; intros H; [congruence|].
  destruct l as [|b l]; [now left|].
  right. apply IH. discriminate.
Qed.

Lemma Forall_removelast {A} (P : A -> Prop) (l : list A) :
  Forall P l -> Forall P (removelast l).
Proof.
  induction 1 as [|a l Ha Hl IH]; simpl; [constructor|].
  destruct l; [constructor|]. constructor; assumption.
Qed.

(** With a leading slash the loop of [normpath] keeps plain components
    only: [..] removes a component or is dropped. *)
Lemma normpath_step_plain (k : nat) (acc : list string) (comp : string) :
  k <> 0%nat ->
  Forall plain acc ->
  Py.contains comp posixpath.sep = false ->
  Forall plain (posixpath.normpath_step k acc comp).
Proof.
  intros Hk Hacc Hcomp. unfold posixpath.normpath_step.
  destruct (String.eqb_spec comp ""); [exact Hacc|].
  destruct (String.eqb_spec comp "."); [exact Hacc|].
  cbn [orb].
  destruct (String.eqb_spec comp "..") as [-> | Hdd]; cbn [negb orb].
  - destruct (Nat.eqb_spec k 0); [contradiction|]. cbn [andb orb].
    destruct (Nat.eqb_spec (List.length acc) 0) as [Hlen | Hlen]; cbn [negb andb].
    + now apply Forall_removelast.
    + destruct (String.eqb_spec (last acc "") "..") as [Hlast | Hlast].
      * exfalso.
        assert (Hin : In (last acc "") acc).
        { apply last_In. intros ->. now apply Hlen. }
        rewrite Forall_forall in Hacc. apply Hacc in Hin.
        destruct Hin as (_ & _ & _ & Hn). now apply Hn.
      * now apply Forall_removelast.
  - apply Forall_app. split; [exact Hacc|].
    repeat constructor; assumption.
Qed.

Lemma normpath_fold_plain (k : nat) (comps acc : list string) :
  k <> 0%nat ->
  Forall plain acc ->
  Forall (fun x => Py.contains x posixpath.sep = false) comps ->
  Forall plain (fold_left (posixpath.normpath_step k) comps acc).
Proof.
  intros Hk. revert acc.
  induction comps as [|c comps IH]; intros acc Hacc H; simpl; [exact Hacc|].
  inversion H; subst. apply IH; [|assumption].
  now apply normpath_step_plain.
Qed.

Lemma isabs_inv (p : string) :
  posixpath.isabs p = true -> exists r, p = String "/" r.
Proof.
  destruct p as [|a r]; [discriminate|].
  unfold posixpath.isabs, Py.startswith. cbn [String.prefix].
  destruct (ascii_dec "/" a) as [<-|]; [|discriminate].
  intros _. now exists r.
Qed.

Lemma isabs_String (r : string) : posixpath.isabs (String "/" r) = true.
Proof. destruct r; reflexivity. Qed.

Lemma isabs_join (a b : string) :
  posixpath.isabs a = true -> posixpath.isabs (posixpath.join a b) = true.
Proof.
  intros Ha. unfold posixpath.join.
  destruct (Py.startswith b "/") eqn:Hb; [exact Hb|].
  destruct (isabs_inv a Ha) as [r ->].
  destruct (_ || _); apply isabs_String.
Qed.

(** The normal form of an absolute path has no component [.] or [..]. *)
Lemma normpath_absolute_no_dots (p : string) :
  posixpath.isabs p = true ->
  Forall no_dots (Py.split (posixpath.normpath p) posixpath.sep).
Proof.
  intros Habs. destruct (isabs_inv p Habs) as [r ->].
  unfold posixpath.normpath.
  change (String "/" r =? "")%string with false. cbv iota.
  change (Py.startswith (String "/" r) "/") with (posixpath.isabs (String "/" r)).
  rewrite isabs_String.
  set (k := if Py.startswith (String "/" r) "//" && negb (Py.startswith (String "/" r) "///")
            then 2%nat else 1%nat).
  assert (Hk : k = 1%nat \/ k = 2%nat) by (unfold k; destruct (_ && _); auto).
  set (comps := fold_left (posixpath.normpath_step k)
                  (Py.split (String "/" r) posixpath.sep) []).
  assert (Hplain : Forall plain comps).
  { apply normpath_fold_plain; [lia | constructor | apply split_no_sep]. }
  assert (Hsplit : Forall no_dots (Py.split (Py.join "/" comps) posixpath.sep)).
  { destruct comps as [|c comps'] eqn:E.
    - repeat constructor; discriminate.
    - rewrite split_join.
      + eapply Forall_impl; [|exact Hplain]. intros x (_ & _ & H1 & H2). now split.
      + discriminate.
      + eapply Forall_impl; [|exact Hplain]. now intros x (H & _). }
  assert (Hempty : no_dots "") by (split; discriminate).
  destruct Hk as [-> | ->]; simpl.
  - constructor; assumption.
  - constructor; [assumption|]. constructor; assumption.
Qed.

Section Lexical.

Variables root cwd : string.

(** C3, amended.  With an absolute root, a path that [sanitize_path]
    returns is the lexical normal form of the root joined with the
    stripped input: it has no component [.] or [..] and it starts with the
    root as a string.  The file system is not consulted. *)
Theorem sanitize_path_lexical (path safe : string) :
  posixpath.isabs root = true ->
  sanitize_path root cwd path = inr safe ->
  safe = posixpath.normpath
           (posixpath.join root (Py.lstrip (Py.lstrip path "/") "\"))
  /\ Forall no_dots (Py.split safe posixpath.sep)
  /\ Py.startswith safe root = true.
Proof.
  intros Habs H. unfold sanitize_path, posixpath.abspath in H.
  rewrite (isabs_join root _ Habs) in H.
  destruct (Py.startswith _ root) eqn:Hstart; [|discriminate].
  injection H as <-.
  split; [reflexivity|]. split; [|exact Hstart].
  apply normpath_absolute_no_dots. now apply isabs_join.
Qed.

End Lexical.

Lemma sanitize_path_lexical_witness :
  "/allowed/link/passwd"
  = posixpath.normpath
      (posixpath.join "/allowed" (Py.lstrip (Py.lstrip "//link/./x/../passwd" "/") "\"))
  /\ Forall no_dots (Py.split "/allowed/link/passwd" posixpath.sep)
  /\ Py.startswith "/allowed/link/passwd" "/allowed" = true.
Proof.
  apply (sanitize_path_lexical "/allowed" "/" "//link/./x/../passwd").
  - reflexivity.
  - reflexivity.
Defined.

(** C3, as stated, fails: [/allowed/link] is a link to [/etc]; the input
    [link/passwd] is returned, and its real location is [/etc/passwd]. *)
Lemma symlink_escape_is_admitted : ~ spec_symlink_escape_refused.
Proof.
  intros H.
  specialize (H "/allowed" "/" "link/passwd" "/allowed/link/passwd"
                [(["allowed"; "link"], ["etc"])] 4%nat ["etc"; "passwd"]
                eq_refl eq_refl).
  discriminate H.
Qed.

(** ** How far the string comparison confines a path *)

Lemma prefix_inv (p s : string) :
  String.prefix p s = true -> exists rest, s = p ++ rest.
Proof.
  revert s. induction p as [|a p IH]; intros s H.
  - now exists s.
  - destruct s as [|b s]; [discriminate|].
    cbn [String.prefix] in H.
    destruct (ascii_dec a b) as [<- | _]; [|discriminate].
    destruct (IH s H) as [rest ->]. now exists rest.
Qed.

Lemma split_app (x r : string) (c : ascii) :
  Py.split (x ++ String c r) c = (Py.split x c ++ Py.split r c)%list.
Proof.
  induction x as [|a x IH].
  - simpl. now rewrite Ascii.eqb_refl.
  - change (String a x ++ String c r) with (String a (x ++ String c r)).
    simpl. rewrite IH. destruct (Ascii.eqb a c); [reflexivity|].
    destruct (Py.split x c) as [|h t] eqn:E; [|reflexivity].
    now apply split_not_nil in E.
Qed.

Lemma is_prefix_of_app (l x : list string) : is_prefix_of l (l ++ x) = true.
Proof.
  induction l as [|a l IH]; [reflexivity|].
  simpl. now rewrite String.eqb_refl.
Qed.

Lemma append_empty (s : string) : s ++ "" = s.
Proof.
  induction s as [|a s IH]; [reflexivity|].
  change (String a s ++ "") with (String a (s ++ "")). now rewrite IH.
Qed.

(** X1. A path that [sanitize_path] returns lies within the root, component
    by component, unless it continues the string of the root with a
    character other than the separator: the sibling of C1 and C2. *)
Lemma sanitize_path_within_or_sibling (root cwd path safe : string) :
  sanitize_path root cwd path = inr safe ->
  within root safe = true
  \/ exists (c : ascii) (rest : string),
       c <> posixpath.sep /\ safe = root ++ String c rest.
Proof.
  unfold sanitize_path. intros H.
  destruct (Py.startswith _ root) eqn:Hstart; [|discriminate].
  injection H as <-.
  destruct (prefix_inv _ _ Hstart) as [rest Hrest]. rewrite Hrest.
  destruct rest as [|c rest].
  - left. rewrite append_empty. unfold within.
    rewrite <- (app_nil_r (path_components root)) at 2. apply is_prefix_of_app.
  - destruct (ascii_dec c posixpath.sep) as [-> | Hc].
    + left. unfold within, path_components.
      rewrite split_app, filter_app. apply is_prefix_of_app.
    + right. now exists c, rest.
Qed.

(** ** Writing needs content *)

Section Write.

Variables root cwd : string.

Lemma not_content_iff (c : option string) :
  not_content c = true <-> c = None \/ c = Some "".
Proof.
  destruct c as [s|]; simpl.
  - rewrite String.eqb_eq. split.
    + intros ->. now right.
    + intros [H|H]; congruence.
  - split; auto.
Qed.

Lemma file_write_no_content (op : FileOperation) (w : world) :
  not_content (content op) = true ->
  file_write root cwd op w
  = (inr (error_json "Content is required"),
     emitted w [LogInfo ("Attempting to write file: " ++ path op);
                LogError "Content is required for file write"]).
Proof.
  intros H. unfold_tool. cbn. rewrite H. cbn.
  unfold emitted. now rewrite <- app_assoc.
Qed.

(** C8. A write whose content is absent or empty returns the error
    "Content is required", and the file system is left as it was. *)
Theorem file_write_requires_content (op : FileOperation) (w : world) :
  content op = None \/ content op = Some "" ->
  fst (file_write root cwd op w) = inr (error_json "Content is required")
  /\ fs (snd (file_write root cwd op w)) = fs w.
Proof.
  intros H. apply not_content_iff in H.
  rewrite (file_write_no_content op w H). split; reflexivity.
Qed.

(** C10. The content is checked before the path: a write without content
    whose path [sanitize_path] refuses returns "Content is required", not
    the path error, and the only events are the announcement and the
    content error. *)
Theorem file_write_checks_content_first (op : FileOperation) (w : world) (e : exn) :
  content op = None \/ content op = Some "" ->
  sanitize_path root cwd (path op) = inl e ->
  fst (file_write root cwd op w) = inr (error_json "Content is required")
  /\ fst (file_write root cwd op w) <> inr (error_json (str_exn e))
  /\ snd (file_write root cwd op w)
     = emitted w [LogInfo ("Attempting to write file: " ++ path op);
                  LogError "Content is required for file write"].
Proof.
  intros H He. apply not_content_iff in H.
  rewrite (file_write_no_content op w H). cbn.
  repeat split.
  unfold sanitize_path in He.
  destruct (negb _) in He; [|discriminate].
  injection He as <-. cbn. discriminate.
Qed.

End Write.

Lemma file_write_requires_content_witness :
  fst (file_write "/allowed" "/" (mkFileOperation "notes/a.txt" (Some ""))
         (mkWorld (Dir [("allowed", Dir [("notes", Dir [("a.txt", File 7 "hello")])])]) 9 []))
    = inr (error_json "Content is required")
  /\ fs (snd (file_write "/allowed" "/" (mkFileOperation "notes/a.txt" (Some ""))
         (mkWorld (Dir [("allowed", Dir [("notes", Dir [("a.txt", File 7 "hello")])])]) 9 [])))
     = Dir [("allowed", Dir [("notes", Dir [("a.txt", File 7 "hello")])])].
Proof.
  apply (file_write_requires_content "/allowed" "/"
           (mkFileOperation "notes/a.txt" (Some ""))).
  right. reflexivity.
Defined.

Lemma file_write_checks_content_first_witness :
  let w := mkWorld (Dir [("allowed", Dir []); ("etc", Dir [("passwd", File 0 "root")])]) 9 [] in
  let op := mkFileOperation "../etc/passwd" None in
  sanitize_path "/allowed" "/" (path op)
    = inl (ValueError "Access outside allowed directory")
  /\ fst (file_write "/allowed" "/" op w) = inr (error_json "Content is required")
  /\ fst (file_write "/allowed" "/" op w)
       <> inr (error_json "Access outside allowed directory")
  /\ snd (file_write "/allowed" "/" op w)
       = emitted w [LogInfo "Attempting to write file: ../etc/passwd";
                    LogError "Content is required for file write"].
Proof.
  intros w op. split; [reflexivity|].
  apply (file_write_checks_content_first "/allowed" "/" op w
           (ValueError "Access outside allowed directory")).
  - left. reflexivity.
  - reflexivity.
Defined.

(** ** Reading: the size limit *)

Lemma utf8_len_repeat (c : ascii) (n : nat) :
  Py.utf8_len (Py.repeat c n) = Z.of_nat n * Py.utf8_width c.
Proof.
  induction n as [|n IH].
  - reflexivity.
  - cbn [Py.repeat Py.utf8_len]. rewrite IH. lia.
Qed.

Section Read.

Variables root cwd : string.

(** What [file_read] does on a regular file. *)
Lemma file_read_regular (op : FileOperation) (w : world) (safe : string)
    (t : Z) (data : string) :
  sanitize_path root cwd (path op) = inr safe ->
  fs_lookup (fs w) safe = Some (File t data) ->
  file_read root cwd op w
  = if Py.utf8_len data >? MAX_FILE_SIZE then
      (inr (error_json "File too large"),
       emitted w [LogInfo ("Attempting to read file: " ++ path op);
                  LogError ("File too large: " ++ Py.str (Py.utf8_len data) ++ " bytes")])
    else
      (inr (success_read (path op) (universal_newlines data)),
       emitted w [LogInfo ("Attempting to read file: " ++ path op);
                  Progress 50 100; Progress 100 100]).
Proof.
  intros Hs Hl. unfold_tool. simpl. rewrite Hs. simpl.
  repeat (rewrite Hl; simpl).
  destruct (Py.utf8_len data >? MAX_FILE_SIZE); simpl.
  - unfold emitted. now rewrite <- !app_assoc.
  - repeat (rewrite Hl; simpl).
    unfold emitted, success_read. simpl. now rewrite <- !app_assoc.
Qed.

(** C7. A confined regular file of at most [MAX_FILE_SIZE] bytes, and so
    one of exactly that size, is read; one of [MAX_FILE_SIZE + 1] bytes or
    more is refused as too large. *)
Theorem file_read_size_boundary (op : FileOperation) (w : world)
    (safe : string) (t : Z) (data : string) :
  sanitize_path root cwd (path op) = inr safe ->
  fs_lookup (fs w) safe = Some (File t data) ->
  (Py.utf8_len data <= MAX_FILE_SIZE ->
   fst (file_read root cwd op w)
   = inr (success_read (path op) (universal_newlines data)))
  /\ (MAX_FILE_SIZE + 1 <= Py.utf8_len data ->
      fst (file_read root cwd op w) = inr (error_json "File too large")).
Proof.
  intros Hs Hl. rewrite (file_read_regular op w safe t data Hs Hl).
  split; intros Hsize.
  - destruct (Z.gtb_spec (Py.utf8_len data) MAX_FILE_SIZE); [lia | reflexivity].
  - destruct (Z.gtb_spec (Py.utf8_len data) MAX_FILE_SIZE); [reflexivity | lia].
Qed.

End Read.

Lemma file_read_size_boundary_witness :
  let w := mkWorld (Dir [("allowed", Dir [("notes", Dir [("a.txt", File 7 "hello")])])]) 9 [] in
  let op := mkFileOperation "notes/a.txt" None in
  (Py.utf8_len "hello" <= MAX_FILE_SIZE ->
   fst (file_read "/allowed" "/" op w)
   = inr (success_read "notes/a.txt" (universal_newlines "hello")))
  /\ (MAX_FILE_SIZE + 1 <= Py.utf8_len "hello" ->
      fst (file_read "/allowed" "/" op w) = inr (error_json "File too large")).
Proof.
  intros w op.
  apply (file_read_size_boundary "/allowed" "/" op w "/allowed/notes/a.txt" 7 "hello").
  - reflexivity.
  - reflexivity.
Defined.

(** The two sides of the limit, on files of exactly [MAX_FILE_SIZE] and of
    [MAX_FILE_SIZE + 1] bytes. *)
Lemma file_read_limit_world (data : string) :
  fst (file_read "/allowed" "/" (mkFileOperation "big.txt" None) (limit_world data))
  = if Py.utf8_len data >? MAX_FILE_SIZE
    then inr (error_json "File too large")
    else inr (success_read "big.txt" (universal_newlines data)).
Proof.
  rewrite (file_read_regular "/allowed" "/" (mkFileOperation "big.txt" None)
             (limit_world data) "/allowed/big.txt" 0 data);
    [| reflexivity | reflexivity].
  now destruct (Py.utf8_len data >? MAX_FILE_SIZE).
Qed.

Lemma utf8_len_full :
  Py.utf8_len (Py.repeat "a" (Z.to_nat MAX_FILE_SIZE)) = MAX_FILE_SIZE.
Proof.
  rewrite utf8_len_repeat. rewrite Z2Nat.id.
  - apply Z.mul_1_r.
  - discriminate.
Qed.

Lemma utf8_len_String (a : ascii) (s : string) :
  Py.utf8_len (String a s) = Py.utf8_width a + Py.utf8_len s.
Proof. reflexivity. Qed.

Example file_read_at_the_limit :
  fst (file_read "/allowed" "/" (mkFileOperation "big.txt" None)
         (limit_world (Py.repeat "a" (Z.to_nat MAX_FILE_SIZE))))
  = inr (success_read "big.txt"
           (universal_newlines (Py.repeat "a" (Z.to_nat MAX_FILE_SIZE))))
  /\ fst (file_read "/allowed" "/" (mkFileOperation "big.txt" None)
            (limit_world (String "a" (Py.repeat "a" (Z.to_nat MAX_FILE_SIZE)))))
     = inr (error_json "File too large").
Proof.
  split.
  - rewrite file_read_limit_world. rewrite utf8_len_full.
    rewrite Z.gtb_ltb, Z.ltb_irrefl. reflexivity.
  - rewrite file_read_limit_world. rewrite utf8_len_String, utf8_len_full.
    reflexivity.
Qed.

(** ** Writing, then reading *)

Lemma find_set_entry (name : string) (v : node) (es : list (string * node)) :
  find_entry name (set_entry name v es) = Some v.
Proof.
  induction es as [|[k n] es IH]; simpl.
  - now rewrite String.eqb_refl.
  - destruct (String.eqb k name) eqn:E; simpl; rewrite E; [reflexivity | exact IH].
Qed.

(** After [write_in] the path leads to the file just written. *)
Lemma lookup_write_in (name : string) (now : Z) (data : string)
    (comps : list string) :
  forall n n', write_in name now data n comps = inr n' ->
               lookup n' comps = Some (File now data).
Proof.
  induction comps as [|c cs IH]; intros n n' H; simpl in H.
  - destruct n; [|discriminate]. now injection H as <-.
  - destruct n as [t d | es]; [discriminate|].
    destruct (find_entry c es) as [child|] eqn:Hc.
    + destruct (write_in name now data child cs) as [e | child'] eqn:Hw;
        [discriminate|].
      injection H as <-. simpl. rewrite find_set_entry. eapply IH, Hw.
    + destruct cs; [|discriminate].
      injection H as <-. simpl. now rewrite find_set_entry.
Qed.

Lemma universal_newlines_id (s : string) :
  Py.contains s CR = false -> universal_newlines s = s.
Proof.
  induction s as [|a s IH]; simpl; intros H.
  - reflexivity.
  - apply orb_false_iff in H as [Ha Hs]. unfold CR in Ha. rewrite Ha.
    now rewrite IH.
Qed.

Section RoundTrip.

Variables root cwd : string.

(** What a successful [file_write] has done. *)
Lemma file_write_success (op : FileOperation) (w : world) (j : json) :
  fst (file_write root cwd op w) = inr j ->
  field "status" j = Some (JStr "success") ->
  exists (c safe : string) (fs1 fs2 : node),
    content op = Some c /\ c <> ""
    /\ sanitize_path root cwd (path op) = inr safe
    /\ makedirs_in (posixpath.dirname safe) [] (fs w)
         (path_components (posixpath.dirname safe)) = inr fs1
    /\ write_in safe (clock w) c fs1 (path_components safe) = inr fs2
    /\ snd (file_write root cwd op w)
       = mkWorld fs2 (clock w)
           (log w ++ [LogInfo ("Attempting to write file: " ++ path op);
                      Progress 50 100; Progress 100 100]).
Proof.
  unfold_tool. simpl.
  destruct (not_content (content op)) eqn:Hc; simpl.
  { intros [= <-]. discriminate. }
  destruct (content op) as [c|] eqn:Hcontent; [|discriminate].
  simpl in Hc. apply String.eqb_neq in Hc.
  destruct (sanitize_path root cwd (path op)) as [e | safe] eqn:Hs; simpl.
  { intros [= <-]. discriminate. }
  destruct (makedirs_in _ _ _ _) as [e | fs1] eqn:Hm; simpl.
  { intros [= <-]. discriminate. }
  destruct (write_in _ _ _ _ _) as [e | fs2] eqn:Hw; simpl.
  { intros [= <-]. discriminate. }
  intros _ _. exists c, safe, fs1, fs2.
  repeat split; try assumption.
  now rewrite <- !app_assoc.
Qed.

(** C5, amended.  When a write of a content without carriage returns and
    within the size limit reports success, the content was not empty and
    reading the same path returns exactly that content. *)
Theorem write_then_read (p c : string) (any : option string) (w : world) (j : json) :
  Py.contains c CR = false ->
  Py.utf8_len c <= MAX_FILE_SIZE ->
  fst (file_write root cwd (mkFileOperation p (Some c)) w) = inr j ->
  field "status" j = Some (JStr "success") ->
  c <> ""
  /\ fst (file_read root cwd (mkFileOperation p any)
            (snd (file_write root cwd (mkFileOperation p (Some c)) w)))
     = inr (success_read p c).
Proof.
  intros Hcr Hsize Hj Hstatus.
  destruct (file_write_success _ w j Hj Hstatus)
    as (c' & safe & fs1 & fs2 & Hc & Hne & Hs & _ & Hw & Hw').
  simpl in Hc, Hs. injection Hc as <-. split; [exact Hne|].
  rewrite Hw'.
  rewrite (file_read_regular root cwd (mkFileOperation p any) _ safe (clock w) c).
  - destruct (Z.gtb_spec (Py.utf8_len c) MAX_FILE_SIZE); [lia|].
    simpl. now rewrite universal_newlines_id.
  - exact Hs.
  - simpl. unfold fs_lookup. eapply lookup_write_in, Hw.
Qed.

End RoundTrip.

Lemma write_then_read_witness :
  let w := mkWorld (Dir [("sandbox", Dir [])]) 5 [] in
  let op := mkFileOperation "notes/a.txt" (Some "hello") in
  fst (file_write "/sandbox" "/" op w)
    = inr (JObj [("status", JStr "success"); ("path", JStr "notes/a.txt");
                 ("message", JStr "File written successfully")])
  /\ "hello" <> ""
  /\ fst (file_read "/sandbox" "/" (mkFileOperation "notes/a.txt" None)
            (snd (file_write "/sandbox" "/" op w)))
     = inr (success_read "notes/a.txt" "hello").
Proof.
  intros w op. split; [reflexivity|].
  apply (write_then_read "/sandbox" "/" "notes/a.txt" "hello" None w
           (JObj [("status", JStr "success"); ("path", JStr "notes/a.txt");
                  ("message", JStr "File written successfully")])).
  - reflexivity.
  - vm_compute. discriminate.
  - reflexivity.
  - reflexivity.
Defined.

(** C5, as stated, fails: the empty content is within the size limit and
    the path is confined, yet nothing is written and the read finds no
    file. *)
Lemma round_trip_fails_on_empty_content : ~ spec_round_trip.
Proof.
  intros H.
  specialize (H "/allowed" "/" "a.txt" "" "/allowed/a.txt"
                (mkWorld (Dir [("allowed", Dir [])]) 0 [])).
  cbv zeta in H.
  assert (Hread :
    fst (file_read "/allowed" "/" (mkFileOperation "a.txt" None)
           (snd (file_write "/allowed" "/" (mkFileOperation "a.txt" (Some ""))
                   (mkWorld (Dir [("allowed", Dir [])]) 0 []))))
    = inr (error_json "File not found")) by reflexivity.
  rewrite Hread in H.
  assert (Hfalse : inr (error_json "File not found")
                   = (inr (success_read "a.txt" "") : result json)).
  { apply H; [vm_compute; discriminate | reflexivity | reflexivity]. }
  discriminate Hfalse.
Qed.

(** Two more ways in which a write is not read back: a carriage return is
    read as a line feed, and a confined path that names a directory cannot
    be written. *)
Example carriage_return_is_not_read_back :
  let w := mkWorld (Dir [("allowed", Dir [])]) 0 [] in
  let text := String "a" (String CR (String "b" EmptyString)) in
  fst (file_read "/allowed" "/" (mkFileOperation "a.txt" None)
         (snd (file_write "/allowed" "/" (mkFileOperation "a.txt" (Some text)) w)))
  = inr (success_read "a.txt" (String "a" (String "010" (String "b" EmptyString)))).
Proof. reflexivity. Qed.

Example directory_is_not_written :
  let w := mkWorld (Dir [("allowed", Dir [("notes", Dir [])])]) 0 [] in
  fst (file_write "/allowed" "/" (mkFileOperation "notes" (Some "hello")) w)
  = inr (error_json "[Errno 21] Is a directory: '/allowed/notes'").
Proof. reflexivity. Qed.

(** ** Folder analysis *)

(** Induction on a tree, with the property at hand for every entry of a
    directory. *)
Lemma node_induction (P : node -> Prop) :
  (forall t data, P (File t data)) ->
  (forall es, Forall (fun e => P (snd e)) es -> P (Dir es)) ->
  forall n, P n.
Proof.
  intros HF HD. fix IH 1. intros [t data | es].
  - apply HF.
  - apply HD. induction es as [|[k n] es IHes]; constructor.
    + apply IH.
    + exact IHes.
Qed.

(** *** Paths of entries *)

Lemma append_String (a : ascii) (x r : string) :
  String a x ++ r = String a (x ++ r).
Proof. reflexivity. Qed.

Lemma append_sep (x r : string) (c : ascii) :
  (x ++ String c "") ++ r = x ++ String c r.
Proof.
  induction x as [|a x IH]; [reflexivity|].
  rewrite !append_String. now rewrite IH.
Qed.

Lemma endswith_inv (s : string) (c : ascii) :
  Py.endswith s c = true -> exists x, s = x ++ String c "".
Proof.
  induction s as [|a s IH]; [discriminate|].
  destruct s as [|b s].
  - simpl. intros H. apply Ascii.eqb_eq in H as ->. now exists "".
  - intros H. destruct (IH H) as [x Hx]. exists (String a x).
    change (String a x ++ String c "") with (String a (x ++ String c "")).
    now rewrite <- Hx.
Qed.

Lemma valid_name_inv (name : string) :
  valid_name name = true ->
  name <> "" /\ Py.contains name posixpath.sep = false.
Proof.
  unfold valid_name, posixpath.nonempty. intros H.
  apply andb_true_iff in H as [H1 H2].
  apply negb_true_iff in H1, H2. split; [|exact H2].
  now apply String.eqb_neq.
Qed.

Lemma components_name (name : string) :
  valid_name name = true -> path_components name = [name].
Proof.
  intros H. destruct (valid_name_inv name H) as [Hne Hsep].
  unfold path_components. rewrite (split_single _ _ Hsep). simpl.
  unfold posixpath.nonempty. apply String.eqb_neq in Hne. now rewrite Hne.
Qed.

Lemma components_app (x name : string) :
  valid_name name = true ->
  path_components (x ++ String posixpath.sep name) = (path_components x ++ [name])%list.
Proof.
  intros H. unfold path_components. rewrite split_app, filter_app.
  f_equal. now apply components_name.
Qed.

Lemma components_trailing_sep (x : string) :
  path_components (x ++ String posixpath.sep "") = path_components x.
Proof.
  unfold path_components. rewrite split_app, filter_app. simpl.
  apply app_nil_r.
Qed.

(** The components of [join top name] are those of [top], then [name]. *)
Lemma components_join (top name : string) :
  valid_name name = true ->
  path_components (posixpath.join top name) = (path_components top ++ [name])%list.
Proof.
  intros H. destruct (valid_name_inv name H) as [Hne Hsep].
  unfold posixpath.join.
  assert (Hstart : Py.startswith name "/" = false).
  { destruct name as [|a name]; [reflexivity|].
    simpl in Hsep. apply orb_false_iff in Hsep as [Ha _].
    unfold Py.startswith. cbn [String.prefix].
    destruct (ascii_dec "/" a) as [<-|]; [discriminate Ha | reflexivity]. }
  rewrite Hstart.
  destruct (String.eqb_spec top "") as [-> | Htop]; cbn [orb].
  - now apply components_name.
  - destruct (Py.endswith top posixpath.sep) eqn:E.
    + destruct (endswith_inv _ _ E) as [x ->].
      rewrite components_trailing_sep.
      rewrite append_sep.
      now apply components_app.
    + now apply components_app.
Qed.

Lemma lookup_app (l1 l2 : list string) :
  forall n,
    lookup n (l1 ++ l2)
    = match lookup n l1 with Some n' => lookup n' l2 | None => None end.
Proof.
  induction l1 as [|c l1 IH]; intros n; simpl; [reflexivity|].
  destruct n as [t d | es]; [reflexivity|].
  destruct (find_entry c es); [apply IH | reflexivity].
Qed.

Lemma find_entry_In (es : list (string * node)) (e : string * node) :
  distinct (map fst es) = true -> In e es -> find_entry (fst e) es = Some (snd e).
Proof.
  induction es as [|[k n] es IH]; intros Hd Hin; [contradiction|].
  simpl in Hd. apply andb_true_iff in Hd as [Hk Hd]. apply negb_true_iff in Hk.
  simpl. destruct Hin as [<- | Hin].
  - simpl. now rewrite String.eqb_refl.
  - destruct (String.eqb_spec k (fst e)) as [-> | Hne]; [|now apply IH].
    exfalso. assert (existsb (String.eqb (fst e)) (map fst es) = true); [|congruence].
    apply existsb_exists. exists (fst e). split; [|apply String.eqb_refl].
    now apply in_map.
Qed.

(** An entry of a well-formed directory is found under its joined path. *)
Lemma fs_lookup_entry (r : node) (top : string) (es : list (string * node))
    (e : string * node) :
  fs_lookup r top = Some (Dir es) ->
  wf_node (Dir es) = true ->
  In e es ->
  fs_lookup r (posixpath.join top (fst e)) = Some (snd e).
Proof.
  intros Htop Hwf Hin. simpl in Hwf.
  apply andb_true_iff in Hwf as [Hwf _]. apply andb_true_iff in Hwf as [Hnames Hd].
  rewrite forallb_forall in Hnames.
  unfold fs_lookup in *. rewrite components_join by now apply Hnames.
  rewrite lookup_app, Htop. simpl. now rewrite find_entry_In.
Qed.

Lemma wf_node_entry (es : list (string * node)) (e : string * node) :
  wf_node (Dir es) = true -> In e es -> wf_node (snd e) = true.
Proof.
  simpl. intros H Hin. apply andb_true_iff in H as [_ H].
  rewrite forallb_forall in H. now apply H.
Qed.

(** *** The loops compute the traversal *)

Lemma for_each_app {A S} (l1 l2 : list A) (body : A -> S -> M S) (s : S) (w : world) :
  for_each (l1 ++ l2) body s w
  = match for_each l1 body s w with
    | (inr s', w') => for_each l2 body s' w'
    | (inl e, w') => (inl e, w')
    end.
Proof.
  revert s w. induction l1 as [|a l1 IH]; intros s w; simpl.
  - reflexivity.
  - unfold bind. destruct (body a s w) as [[e | s'] w']; [reflexivity|].
    apply IH.
Qed.

Lemma emitted_nil (w : world) : emitted w [] = w.
Proof. destruct w. unfold emitted. simpl. now rewrite app_nil_r. Qed.

Lemma emitted_app (w : world) (e1 e2 : list event) :
  emitted (emitted w e1) e2 = emitted w (e1 ++ e2).
Proof. unfold emitted. simpl. now rewrite app_assoc. Qed.

Section Analysis.

Variables root cwd : string.

Lemma add_totals_assoc (a b c : totals) : add_totals (add_totals a b) c = add_totals a (add_totals b c).
Proof.
  unfold add_totals. simpl. now rewrite app_assoc, !Z.add_assoc.
Qed.

Lemma add_no_totals (a : totals) : add_totals a no_totals = a.
Proof.
  destruct a. unfold add_totals. simpl. now rewrite app_nil_r, !Z.add_0_r.
Qed.

Lemma level_totals_cons (top : string) (e : string * node)
    (fes : list (string * node)) :
  level_totals root cwd top (e :: fes) = add_totals (level_totals root cwd top [e]) (level_totals root cwd top fes).
Proof.
  unfold level_totals, add_totals. simpl. f_equal; [lia|].
  rewrite Zpos_P_of_succ_nat. lia.
Qed.

(** One turn of the inner loop. *)
Lemma analyse_file_run (top : string) (all : list string) (i : nat)
    (e : string * node) (acc : totals) (w : world) :
  fs_lookup (fs w) (posixpath.join top (fst e)) = Some (snd e) ->
  analyse_file root cwd top all (i, fst e) acc w
  = (inr (add_totals acc (level_totals root cwd top [e])), emitted w (tick (List.length all) i)).
Proof.
  intros H. unfold analyse_file, tick. unfold_tool. simpl. rewrite H.
  assert (Hacc :
    mkTotals (files acc ++ [file_json root cwd top e])
      (total_size acc + node_size (snd e)) (file_count acc + 1)
    = add_totals acc (level_totals root cwd top [e])).
  { unfold add_totals, level_totals. simpl. f_equal. lia. }
  destruct (snd e) as [t data | es] eqn:E; simpl; rewrite H; simpl;
    unfold file_json in Hacc; rewrite E in Hacc; simpl in Hacc; rewrite Hacc;
    destruct ((Z.of_nat i + 1) mod 10 =? 0); simpl;
    try reflexivity; now rewrite emitted_nil.
Qed.

(** The inner loop, from the file number [k] on. *)
Lemma analyse_files_run (top : string) (all : list string) :
  forall (fes : list (string * node)) (k : nat) (acc : totals) (w : world),
    (forall e, In e fes ->
               fs_lookup (fs w) (posixpath.join top (fst e)) = Some (snd e)) ->
    for_each (combine (seq k (List.length (map fst fes))) (map fst fes))
      (analyse_file root cwd top all) acc w
    = (inr (add_totals acc (level_totals root cwd top fes)),
       emitted w (level_events (List.length all) k (List.length fes))).
Proof.
  induction fes as [|e fes IH]; intros k acc w H.
  - simpl. unfold ret. rewrite emitted_nil.
    change (level_totals root cwd top []) with no_totals. now rewrite add_no_totals.
  - cbn [map List.length seq combine for_each]. unfold bind.
    rewrite analyse_file_run by (apply H; now left).
    rewrite IH by (intros e' He'; simpl; apply H; now right).
    rewrite emitted_app, add_totals_assoc, <- level_totals_cons.
    reflexivity.
Qed.

(** The outer loop over the walk of a well-formed tree. *)
Lemma analyse_walk_run :
  forall (n : node) (top : string) (acc : totals) (w : world),
    fs_lookup (fs w) top = Some n ->
    wf_node n = true ->
    for_each (walk_node top n) (analyse_level root cwd) acc w
    = (inr (add_totals acc (walk_totals root cwd top n)), emitted w (walk_events n)).
Proof.
  induction n as [t data | es IH] using node_induction;
    intros top acc w Htop Hwf.
  - simpl. unfold ret. rewrite emitted_nil.
    change (walk_totals root cwd top (File t data)) with no_totals. now rewrite add_no_totals.
  - cbn [walk_node for_each]. unfold bind.
    cbn [analyse_level]. unfold enumerate, filenames.
    fold (file_entries es).
    rewrite analyse_files_run.
    2:{ intros e He. apply (fs_lookup_entry _ top es); try assumption.
        unfold file_entries in He. now apply filter_In in He. }
    rewrite length_map.
    cbn [walk_totals walk_events]. rewrite <- add_totals_assoc, <- emitted_app.
    set (acc1 := add_totals acc (level_totals root cwd top (file_entries es))).
    set (w1 := emitted w _).
    assert (Hw1 : fs w1 = fs w) by reflexivity.
    assert (Hsub : forall e, In e es ->
              fs_lookup (fs w1) (posixpath.join top (fst e)) = Some (snd e)
              /\ wf_node (snd e) = true).
    { intros e He. rewrite Hw1. split.
      - now apply (fs_lookup_entry _ top es).
      - now apply (wf_node_entry es). }
    clearbody acc1 w1. clear Hw1 Htop Hwf.
    revert acc1 w1 Hsub.
    induction IH as [|e es' He _ IHes]; intros acc1 w1 Hsub.
    + simpl. unfold ret. now rewrite emitted_nil, add_no_totals.
    + cbn [flat_map fold_right]. rewrite for_each_app.
      destruct (Hsub e (or_introl eq_refl)) as [Hl Hw].
      rewrite (He _ acc1 w1 Hl Hw).
      rewrite IHes.
      * now rewrite emitted_app, add_totals_assoc.
      * intros e' He'. apply Hsub. now right.
Qed.

End Analysis.

(** *** The totals of the traversal are those of the tree *)

Section Totals.

Variables root cwd : string.

Lemma walk_file_count (n : node) :
  forall top,
    file_count (walk_totals root cwd top n)
    = if is_dir n then count_files n else 0.
Proof.
  induction n as [t data | es IH] using node_induction; intros top.
  - reflexivity.
  - cbn [walk_totals is_dir count_files add_totals file_count level_totals].
    induction IH as [|[name child] es' He _ IHes].
    + reflexivity.
    + cbn [fold_right map sumZ add_totals file_count fst snd file_entries filter].
      cbn [snd] in He. rewrite He.
      unfold file_entries in IHes.
      destruct child as [t data | es'']; cbn [is_dir negb List.length count_files];
        [rewrite Nat2Z.inj_succ|]; unfold sumZ in *; lia.
Qed.

Lemma walk_total_size (n : node) :
  forall top,
    total_size (walk_totals root cwd top n)
    = if is_dir n then total_bytes n else 0.
Proof.
  induction n as [t data | es IH] using node_induction; intros top.
  - reflexivity.
  - cbn [walk_totals is_dir total_bytes add_totals total_size level_totals].
    induction IH as [|[name child] es' He _ IHes].
    + reflexivity.
    + cbn [fold_right map sumZ add_totals total_size fst snd file_entries filter].
      cbn [snd] in He. rewrite He.
      unfold file_entries in IHes.
      destruct child as [t data | es''];
        cbn [is_dir negb map sumZ fold_right snd node_size total_bytes];
        unfold sumZ in *; lia.
Qed.

Lemma walk_files_length (n : node) :
  forall top,
    Z.of_nat (List.length (files (walk_totals root cwd top n)))
    = file_count (walk_totals root cwd top n).
Proof.
  induction n as [t data | es IH] using node_induction; intros top.
  - reflexivity.
  - cbn [walk_totals add_totals files file_count level_totals].
    rewrite length_app, length_map, Nat2Z.inj_add. f_equal.
    induction IH as [|[name child] es' He _ IHes].
    + reflexivity.
    + cbn [fold_right add_totals files file_count fst snd].
      rewrite length_app, Nat2Z.inj_add, He, IHes. reflexivity.
Qed.

End Totals.

(** *** Progress *)

Lemma tick_value_bounds (total i : nat) : 0 <= tick_value total i <= 90.
Proof.
  unfold tick_value. split; [|apply Z.le_min_l].
  apply Z.min_glb; [lia|].
  destruct total as [|total].
  - change (Z.of_nat 0) with 0. now rewrite Z.div_0_r.
  - apply Z.div_pos; lia.
Qed.

Lemma tick_value_mono (total i j : nat) :
  (i <= j)%nat -> tick_value total i <= tick_value total j.
Proof.
  intros H. unfold tick_value. apply Z.min_le_compat_l.
  destruct total as [|total].
  - change (Z.of_nat 0) with 0. rewrite !Z.div_0_r. lia.
  - apply Z.div_le_mono; lia.
Qed.

Lemma progress_values_app (l1 l2 : list event) :
  progress_values (l1 ++ l2) = (progress_values l1 ++ progress_values l2)%list.
Proof. apply flat_map_app. Qed.

Lemma progress_values_tick (total i : nat) (v : Z) :
  In v (progress_values (tick total i)) -> v = tick_value total i.
Proof.
  unfold tick. destruct (_ =? 0); simpl; [|contradiction].
  intros [<- | []]. reflexivity.
Qed.

Lemma level_events_S (total k n : nat) :
  level_events total k (S n) = (tick total k ++ level_events total (S k) n)%list.
Proof. reflexivity. Qed.

Lemma level_values_bounds (total : nat) :
  forall n k v,
    In v (progress_values (level_events total k n)) ->
    tick_value total k <= v <= 90.
Proof.
  induction n as [|n IH]; intros k v H; [contradiction|].
  rewrite level_events_S, progress_values_app in H.
  apply in_app_or in H as [H | H].
  - apply progress_values_tick in H as ->.
    split; [lia | apply tick_value_bounds].
  - apply IH in H. split; [|lia].
    pose proof (tick_value_mono total k (S k)). lia.
Qed.

Lemma nondecreasing_cons (a : Z) (l : list Z) :
  (forall v, In v l -> a <= v) ->
  nondecreasing l = true ->
  nondecreasing (a :: l) = true.
Proof.
  intros Ha Hl. destruct l as [|b l]; [reflexivity|].
  change (nondecreasing (a :: b :: l)) with ((a <=? b) && nondecreasing (b :: l)).
  rewrite Hl, andb_true_r.
  apply Z.leb_le, Ha. now left.
Qed.

(** Within one directory the progress values never decrease. *)
Lemma level_values_nondecreasing (total : nat) :
  forall n k, nondecreasing (progress_values (level_events total k n)) = true.
Proof.
  induction n as [|n IH]; intros k; [reflexivity|].
  rewrite level_events_S, progress_values_app.
  unfold tick at 1. destruct (_ =? 0); simpl; [|apply IH].
  apply nondecreasing_cons; [|apply IH].
  intros v Hv. apply level_values_bounds in Hv.
  pose proof (tick_value_mono total k (S k)). fold (tick_value total k). lia.
Qed.

Lemma level_values_ok (total : nat) :
  level_ok (progress_values (level_events total 0 total)).
Proof.
  split; [apply level_values_nondecreasing|].
  apply Forall_forall. intros v Hv. apply level_values_bounds in Hv.
  pose proof (tick_value_bounds total 0). lia.
Qed.

Lemma walk_events_ticks (n : node) :
  progress_values (walk_events n) = List.concat (walk_ticks n).
Proof.
  induction n as [t data | es IH] using node_induction; [reflexivity|].
  cbn [walk_events walk_ticks List.concat]. rewrite progress_values_app. f_equal.
  induction IH as [|e es' He _ IHes]; [reflexivity|].
  cbn [flat_map]. rewrite progress_values_app, concat_app, He, IHes. reflexivity.
Qed.

Lemma walk_ticks_ok (n : node) : Forall level_ok (walk_ticks n).
Proof.
  induction n as [t data | es IH] using node_induction; [constructor|].
  cbn [walk_ticks]. constructor; [apply level_values_ok|].
  induction IH as [|e es' He _ IHes]; [constructor|].
  cbn [flat_map]. apply Forall_app. now split.
Qed.

Lemma walk_ticks_length (n : node) : List.length (walk_ticks n) = count_dirs n.
Proof.
  induction n as [t data | es IH] using node_induction; [reflexivity|].
  cbn [walk_ticks count_dirs List.length]. f_equal.
  induction IH as [|e es' He _ IHes]; [reflexivity|].
  cbn [flat_map map list_sum fold_right]. rewrite length_app, He, IHes. reflexivity.
Qed.

(** *** The result of an analysis *)

#[local] Arguments walk_node : simpl never.
#[local] Arguments for_each : simpl never.
#[local] Arguments firstn : simpl never.

Section Result.

Variables root cwd : string.

(** An analysis of a well-formed directory, in full. *)
Lemma folder_analysis_run (folder : FolderAnalysis) (w : world)
    (safe : string) (es : list (string * node)) :
  sanitize_path root cwd (folder_path folder) = inr safe ->
  fs_lookup (fs w) safe = Some (Dir es) ->
  wf_node (Dir es) = true ->
  folder_analysis root cwd folder w
  = (inr (JObj [("status", JStr "success");
                ("path", JStr (folder_path folder));
                ("file_count",
                 JInt (file_count (walk_totals root cwd safe (Dir es))));
                ("total_size",
                 JInt (total_size (walk_totals root cwd safe (Dir es))));
                ("files",
                 JList (firstn 50 (files (walk_totals root cwd safe (Dir es)))));
                ("message", JStr "Folder analysis completed")]),
     emitted w
       (LogInfo ("Analyzing folder: " ++ folder_path folder)
        :: Progress 0 100 :: walk_events (Dir es) ++ [Progress 100 100])).
Proof.
  intros Hs Hl Hwf. unfold_tool. simpl. rewrite Hs. simpl.
  repeat (rewrite Hl; simpl).
  rewrite (analyse_walk_run root cwd (Dir es) safe); [|exact Hl|exact Hwf].
  unfold add_totals, emitted. simpl. f_equal.
  f_equal. rewrite <- !app_assoc. reflexivity.
Qed.

Lemma analysis_fields (p m : string) (n t : Z) (l : list json) :
  let j := JObj [("status", JStr "success"); ("path", JStr p);
                 ("file_count", JInt n); ("total_size", JInt t);
                 ("files", JList l); ("message", JStr m)] in
  field "file_count" j = Some (JInt n)
  /\ field "total_size" j = Some (JInt t)
  /\ field "files" j = Some (JList l)
  /\ field "truncated" j = None.
Proof. repeat split. Qed.

(** C4. For a well-formed directory the result gives the number of
    regular files of the whole tree and the sum of their sizes, while the
    listing holds the first 50 of them at most. *)
Theorem analysis_totals (folder : FolderAnalysis) (w : world)
    (safe : string) (es : list (string * node)) :
  sanitize_path root cwd (folder_path folder) = inr safe ->
  fs_lookup (fs w) safe = Some (Dir es) ->
  wf_node (Dir es) = true ->
  exists (j : json) (listed : list json),
    fst (folder_analysis root cwd folder w) = inr j
    /\ field "file_count" j = Some (JInt (count_files (Dir es)))
    /\ field "total_size" j = Some (JInt (total_bytes (Dir es)))
    /\ field "files" j = Some (JList listed)
    /\ Z.of_nat (List.length listed) = Z.min 50 (count_files (Dir es)).
Proof.
  intros Hs Hl Hwf. rewrite (folder_analysis_run folder w safe es Hs Hl Hwf).
  eexists. eexists. split; [reflexivity|].
  pose proof (walk_file_count root cwd (Dir es) safe) as Hc.
  pose proof (walk_total_size root cwd (Dir es) safe) as Ht.
  pose proof (walk_files_length root cwd (Dir es) safe) as Hlen.
  cbn [is_dir] in Hc, Ht.
  match goal with
  | |- context [JObj [_; (_, JStr ?p); (_, JInt ?n); (_, JInt ?t); (_, JList ?l);
                      (_, JStr ?m)]] =>
      destruct (analysis_fields p m n t l) as (F1 & F2 & F3 & _)
  end.
  rewrite F1, F2, F3, Hc, Ht. repeat split.
  rewrite length_firstn. lia.
Qed.

(** C6, amended.  The listing is the first 50 entries of the traversal,
    in its order; the result has no [truncated] field, and the listing is
    shorter than [file_count] exactly when [file_count] exceeds 50. *)
Theorem analysis_listing (folder : FolderAnalysis) (w : world)
    (safe : string) (es : list (string * node)) :
  sanitize_path root cwd (folder_path folder) = inr safe ->
  fs_lookup (fs w) safe = Some (Dir es) ->
  wf_node (Dir es) = true ->
  exists (j : json) (n : Z),
    fst (folder_analysis root cwd folder w) = inr j
    /\ field "file_count" j = Some (JInt n)
    /\ Z.of_nat (List.length (files (walk_totals root cwd safe (Dir es)))) = n
    /\ field "files" j
       = Some (JList (firstn 50 (files (walk_totals root cwd safe (Dir es)))))
    /\ field "truncated" j = None
    /\ (n > 50 <->
        (List.length (firstn 50 (files (walk_totals root cwd safe (Dir es))))
         < List.length (files (walk_totals root cwd safe (Dir es))))%nat).
Proof.
  intros Hs Hl Hwf. rewrite (folder_analysis_run folder w safe es Hs Hl Hwf).
  eexists. eexists. split; [reflexivity|].
  pose proof (walk_files_length root cwd (Dir es) safe) as Hlen.
  match goal with
  | |- context [JObj [_; (_, JStr ?p); (_, JInt ?n); (_, JInt ?t); (_, JList ?l);
                      (_, JStr ?m)]] =>
      destruct (analysis_fields p m n t l) as (F1 & _ & F3 & F4)
  end.
  rewrite F1, F3, F4. split; [reflexivity|]. split; [exact Hlen|].
  repeat split; rewrite length_firstn; lia.
Qed.

(** C9, amended.  The progress values of an analysis are 0, then the
    values of each directory of the walk in turn, then 100; within one
    directory they never decrease and lie between 0 and 90.  From one
    directory to the next they may decrease. *)
Theorem analysis_progress (folder : FolderAnalysis) (w : world)
    (safe : string) (es : list (string * node)) :
  sanitize_path root cwd (folder_path folder) = inr safe ->
  fs_lookup (fs w) safe = Some (Dir es) ->
  wf_node (Dir es) = true ->
  exists (evs : list event) (levels : list (list Z)),
    snd (folder_analysis root cwd folder w) = emitted w evs
    /\ progress_values evs = (0 :: List.concat levels ++ [100])%list
    /\ Forall level_ok levels
    /\ List.length levels = count_dirs (Dir es).
Proof.
  intros Hs Hl Hwf. rewrite (folder_analysis_run folder w safe es Hs Hl Hwf).
  eexists. exists (walk_ticks (Dir es)). split; [reflexivity|].
  split; [|split].
  - change (progress_values (?a :: Progress 0 100 :: ?l))
      with (0 :: progress_values l).
    now rewrite progress_values_app, walk_events_ticks.
  - apply walk_ticks_ok.
  - apply walk_ticks_length.
Qed.

End Result.

Lemma analysis_totals_witness :
  exists (j : json) (listed : list json),
    fst (folder_analysis "/sandbox" "/" (mkFolderAnalysis "notes") sixty_files) = inr j
    /\ field "file_count" j = Some (JInt (count_files (Dir (numbered 60))))
    /\ field "total_size" j = Some (JInt (total_bytes (Dir (numbered 60))))
    /\ field "files" j = Some (JList listed)
    /\ Z.of_nat (List.length listed) = Z.min 50 (count_files (Dir (numbered 60))).
Proof.
  apply (analysis_totals "/sandbox" "/" (mkFolderAnalysis "notes") sixty_files
           "/sandbox/notes" (numbered 60)).
  - vm_compute. reflexivity.
  - vm_compute. reflexivity.
  - vm_compute. reflexivity.
Defined.

Example sixty_files_totals :
  count_files (Dir (numbered 60)) = 60 /\ total_bytes (Dir (numbered 60)) = 60.
Proof. split; vm_compute; reflexivity. Qed.

Lemma analysis_listing_witness :
  exists (j : json) (n : Z),
    fst (folder_analysis "/sandbox" "/" (mkFolderAnalysis "notes") sixty_files) = inr j
    /\ field "file_count" j = Some (JInt n)
    /\ Z.of_nat (List.length
                   (files (walk_totals "/sandbox" "/" "/sandbox/notes"
                             (Dir (numbered 60))))) = n
    /\ field "files" j
       = Some (JList (firstn 50 (files (walk_totals "/sandbox" "/" "/sandbox/notes"
                                          (Dir (numbered 60))))))
    /\ field "truncated" j = None
    /\ (n > 50 <->
        (List.length (firstn 50 (files (walk_totals "/sandbox" "/" "/sandbox/notes"
                                           (Dir (numbered 60)))))
         < List.length (files (walk_totals "/sandbox" "/" "/sandbox/notes"
                                 (Dir (numbered 60)))))%nat).
Proof.
  apply (analysis_listing "/sandbox" "/" (mkFolderAnalysis "notes") sixty_files
           "/sandbox/notes" (numbered 60)).
  - vm_compute. reflexivity.
  - vm_compute. reflexivity.
  - vm_compute. reflexivity.
Defined.

(** C6, as stated, fails: the result of an analysis of 51 files has no
    [truncated] field. *)
Lemma truncated_flag_is_absent : ~ spec_truncated_flag.
Proof.
  intros H.
  set (w := mkWorld (Dir [("allowed", Dir (numbered 51))]) 0 []).
  set (r := fst (folder_analysis "/allowed" "/" (mkFolderAnalysis "") w)).
  set (j := match r with inr j => j | inl _ => JNull end).
  assert (E1 : r = inr j) by (vm_compute; reflexivity).
  assert (E2 : field "file_count" j = Some (JInt 51)) by (vm_compute; reflexivity).
  assert (E3 : field "truncated" j = None) by (vm_compute; reflexivity).
  specialize (H "/allowed" "/" (mkFolderAnalysis "") w j 51 E1 E2).
  rewrite E3 in H. discriminate H.
Qed.

Example two_levels_progress :
  progress_values
    (log (snd (folder_analysis "/allowed" "/" (mkFolderAnalysis "") two_levels)))
  = [0; 90; 45; 90; 100].
Proof. vm_compute. reflexivity. Qed.

Lemma analysis_progress_witness :
  exists (evs : list event) (levels : list (list Z)),
    snd (folder_analysis "/allowed" "/" (mkFolderAnalysis "") two_levels)
    = emitted two_levels evs
    /\ progress_values evs = (0 :: List.concat levels ++ [100])%list
    /\ Forall level_ok levels
    /\ List.length levels
       = count_dirs (Dir (numbered 10 ++ [("sub", Dir (numbered 20))])).
Proof.
  apply (analysis_progress "/allowed" "/" (mkFolderAnalysis "") two_levels
           "/allowed" (numbered 10 ++ [("sub", Dir (numbered 20))])).
  - vm_compute. reflexivity.
  - vm_compute. reflexivity.
  - vm_compute. reflexivity.
Defined.

(** C9, as stated, fails: after the 10 files of the directory the progress
    is 90, and after 10 of the 20 files of the subdirectory it is 45. *)
Lemma progress_decreases_between_directories : ~ spec_progress_monotone.
Proof.
  intros H.
  specialize (H "/allowed" "/" (mkFolderAnalysis "") two_levels eq_refl).
  rewrite two_levels_progress in H. discriminate H.
Qed.

(** * Further properties of the tools *)

Lemma sanitize_path_within_or_sibling_witness :
  within "/allowed" "/allowed/notes/a.txt" = true
  \/ exists (c : ascii) (rest : string),
       c <> posixpath.sep /\ "/allowed/notes/a.txt" = "/allowed" ++ String c rest.
Proof.
  apply (sanitize_path_within_or_sibling "/allowed" "/" "notes/a.txt").
  reflexivity.
Defined.

(** ** A refused path *)

Lemma sanitize_path_error (root cwd p : string) (e : exn) :
  sanitize_path root cwd p = inl e ->
  e = ValueError "Access outside allowed directory".
Proof.
  unfold sanitize_path. destruct (negb _); [|discriminate]. now intros [= <-].
Qed.

Section Refused.

Variables root cwd : string.

(** X2. When [sanitize_path] refuses the path, each of the four tools
    returns the error "Access outside allowed directory" and leaves the file
    system as it was (for [file_write], with some content given). *)
Theorem refused_path_touches_nothing (p c : string) (any : option string)
    (w : world) (e : exn) :
  sanitize_path root cwd p = inl e ->
  c <> "" ->
  (fst (file_read root cwd (mkFileOperation p any) w) = inr refused
   /\ fs (snd (file_read root cwd (mkFileOperation p any) w)) = fs w)
  /\ (fst (file_write root cwd (mkFileOperation p (Some c)) w) = inr refused
      /\ fs (snd (file_write root cwd (mkFileOperation p (Some c)) w)) = fs w)
  /\ (fst (file_delete root cwd (mkFileOperation p any) w) = inr refused
      /\ fs (snd (file_delete root cwd (mkFileOperation p any) w)) = fs w)
  /\ (fst (folder_analysis root cwd (mkFolderAnalysis p) w) = inr refused
      /\ fs (snd (folder_analysis root cwd (mkFolderAnalysis p) w)) = fs w).
Proof.
  intros He Hc. pose proof (sanitize_path_error _ _ _ _ He) as ->.
  apply String.eqb_neq in Hc.
  repeat split; unfold_tool; simpl; rewrite ?Hc; simpl; rewrite He; reflexivity.
Qed.

End Refused.

Lemma refused_path_touches_nothing_witness :
  let w := mkWorld (Dir [("allowed", Dir []); ("etc", Dir [("passwd", File 0 "root")])]) 0 [] in
  (fst (file_read "/allowed" "/" (mkFileOperation "../etc/passwd" None) w) = inr refused
   /\ fs (snd (file_read "/allowed" "/" (mkFileOperation "../etc/passwd" None) w)) = fs w)
  /\ (fst (file_write "/allowed" "/" (mkFileOperation "../etc/passwd" (Some "x")) w)
      = inr refused
      /\ fs (snd (file_write "/allowed" "/" (mkFileOperation "../etc/passwd" (Some "x")) w))
         = fs w)
  /\ (fst (file_delete "/allowed" "/" (mkFileOperation "../etc/passwd" None) w) = inr refused
      /\ fs (snd (file_delete "/allowed" "/" (mkFileOperation "../etc/passwd" None) w)) = fs w)
  /\ (fst (folder_analysis "/allowed" "/" (mkFolderAnalysis "../etc/passwd") w) = inr refused
      /\ fs (snd (folder_analysis "/allowed" "/" (mkFolderAnalysis "../etc/passwd") w)) = fs w).
Proof.
  intros w.
  apply (refused_path_touches_nothing "/allowed" "/" "../etc/passwd" "x" None w
           (ValueError "Access outside allowed directory")).
  - reflexivity.
  - discriminate.
Defined.

(** ** Reading changes nothing but the log *)

Lemma for_each_only_logs {A S} (body : A -> S -> M S) :
  (forall a s w, exists evs, snd (body a s w) = emitted w evs) ->
  forall l s w, exists evs, snd (for_each l body s w) = emitted w evs.
Proof.
  intros Hbody. induction l as [|a l IH]; intros s w.
  - exists []. change (for_each [] body s w) with (ret s w).
    unfold ret. simpl. now rewrite emitted_nil.
  - change (for_each (a :: l) body s w)
      with (bind (body a s) (fun s' => for_each l body s') w).
    unfold bind.
    destruct (Hbody a s w) as [evs1 H1].
    destruct (body a s w) as [[e | s'] w1]; simpl in H1; subst w1.
    + exists evs1. reflexivity.
    + destruct (IH s' (emitted w evs1)) as [evs2 H2].
      exists (evs1 ++ evs2)%list. simpl. now rewrite H2, emitted_app.
Qed.

Ltac only_logs :=
  eexists; unfold emitted; simpl; rewrite <- ?app_assoc; reflexivity.

Section ReadOnly.

Variables root cwd : string.

Lemma analyse_file_only_logs (top : string) (all : list string)
    (entry : nat * string) (acc : totals) (w : world) :
  exists evs, snd (analyse_file root cwd top all entry acc w) = emitted w evs.
Proof.
  destruct entry as [i filename]. unfold analyse_file. unfold_tool. simpl.
  destruct (fs_lookup (fs w) (posixpath.join top filename)) as [[t data | es] |] eqn:E;
    simpl; rewrite ?E; simpl;
    try (exists []; now rewrite emitted_nil);
    destruct ((Z.of_nat i + 1) mod 10 =? 0); simpl;
    try (exists []; now rewrite emitted_nil);
    eexists; unfold emitted; reflexivity.
Qed.

Lemma analyse_level_only_logs (level : string * list string * list string)
    (acc : totals) (w : world) :
  exists evs, snd (analyse_level root cwd level acc w) = emitted w evs.
Proof.
  destruct level as [[top dirs] names]. cbn [analyse_level].
  apply for_each_only_logs. intros a s w'. apply analyse_file_only_logs.
Qed.

Lemma file_read_only_logs (op : FileOperation) (w : world) :
  exists evs, snd (file_read root cwd op w) = emitted w evs.
Proof.
  unfold_tool. simpl.
  destruct (sanitize_path root cwd (path op)) as [e | safe]; simpl.
  { only_logs. }
  destruct (fs_lookup (fs w) safe) as [[t data | es] |] eqn:E;
    simpl; repeat (rewrite E; simpl).
  - destruct (Py.utf8_len data >? MAX_FILE_SIZE); simpl; repeat (rewrite E; simpl);
      only_logs.
  - only_logs.
  - only_logs.
Qed.

Lemma folder_analysis_only_logs (folder : FolderAnalysis) (w : world) :
  exists evs, snd (folder_analysis root cwd folder w) = emitted w evs.
Proof.
  unfold_tool. simpl.
  destruct (sanitize_path root cwd (folder_path folder)) as [e | safe]; simpl.
  { only_logs. }
  destruct (fs_lookup (fs w) safe) as [[t data | es] |] eqn:E;
    simpl; repeat (rewrite E; simpl).
  - only_logs.
  - match goal with
    | |- context [for_each ?l ?b ?s ?w0] =>
        destruct (for_each_only_logs b (analyse_level_only_logs) l s w0) as [evs Hevs];
        destruct (for_each l b s w0) as [[e | acc] w1]
    end; simpl in Hevs; subst w1; simpl; only_logs.
  - only_logs.
Qed.

(** X3. [file_read] and [folder_analysis] only read: whatever their
    outcome, the world after the call is the world before it with some
    events appended to the log; file system and clock are the same. *)
Theorem reading_only_logs (op : FileOperation) (folder : FolderAnalysis) (w : world) :
  (exists evs, snd (file_read root cwd op w) = emitted w evs)
  /\ (exists evs, snd (folder_analysis root cwd folder w) = emitted w evs).
Proof.
  split; [apply file_read_only_logs | apply folder_analysis_only_logs].
Qed.

(** X4. What [file_read] answers on a path that is accepted but holds no
    regular file: "File not found" when nothing is there, "Path is not a
    file" when a directory is there; in both cases no progress is
    reported. *)
Theorem file_read_missing_or_directory (op : FileOperation) (w : world) (safe : string) :
  sanitize_path root cwd (path op) = inr safe ->
  (fs_lookup (fs w) safe = None ->
   file_read root cwd op w
   = (inr (error_json "File not found"),
      emitted w [LogInfo ("Attempting to read file: " ++ path op);
                 LogError ("File not found: " ++ path op)]))
  /\ (forall es, fs_lookup (fs w) safe = Some (Dir es) ->
      file_read root cwd op w
      = (inr (error_json "Path is not a file"),
         emitted w [LogInfo ("Attempting to read file: " ++ path op);
                    LogError ("Path is not a file: " ++ path op)])).
Proof.
  intros Hs. split; [intros E | intros es E];
    unfold_tool; simpl; rewrite Hs; simpl; repeat (rewrite E; simpl);
    unfold emitted; simpl; now rewrite <- !app_assoc.
Qed.

End ReadOnly.

Lemma file_read_missing_or_directory_witness :
  let w := mkWorld (Dir [("allowed", Dir [("notes", Dir [])])]) 0 [] in
  let op := mkFileOperation "notes" None in
  (fs_lookup (fs w) "/allowed/notes" = None ->
   file_read "/allowed" "/" op w
   = (inr (error_json "File not found"),
      emitted w [LogInfo ("Attempting to read file: " ++ path op);
                 LogError ("File not found: " ++ path op)]))
  /\ (forall es, fs_lookup (fs w) "/allowed/notes" = Some (Dir es) ->
      file_read "/allowed" "/" op w
      = (inr (error_json "Path is not a file"),
         emitted w [LogInfo ("Attempting to read file: " ++ path op);
                    LogError ("Path is not a file: " ++ path op)])).
Proof.
  intros w op.
  apply (file_read_missing_or_directory "/allowed" "/" op w "/allowed/notes").
  reflexivity.
Defined.

(** ** Entries of a directory *)

Lemma find_entry_absent (c : string) (es : list (string * node)) :
  existsb (String.eqb c) (map fst es) = false -> find_entry c es = None.
Proof.
  induction es as [|[k n] es IH]; [reflexivity|]. simpl.
  intros H. apply orb_false_iff in H as [Hk Hes].
  rewrite String.eqb_sym, Hk. now apply IH.
Qed.

Lemma find_entry_Some_In (c : string) (es : list (string * node)) (n : node) :
  find_entry c es = Some n -> In (c, n) es.
Proof.
  induction es as [|[k x] es IH]; [discriminate|]. simpl.
  destruct (String.eqb_spec k c) as [-> | _].
  - intros [= ->]. now left.
  - intros H. right. now apply IH.
Qed.

Lemma find_set_entry_other (c d : string) (v : node) (es : list (string * node)) :
  d <> c -> find_entry d (set_entry c v es) = find_entry d es.
Proof.
  intros Hd. induction es as [|[k x] es IH]; simpl.
  - apply String.eqb_neq in Hd. rewrite String.eqb_sym. now rewrite Hd.
  - destruct (String.eqb_spec k c) as [-> | Hk]; simpl.
    + destruct (String.eqb_spec c d) as [-> | _]; [contradiction | reflexivity].
    + now rewrite IH.
Qed.

Lemma find_remove_entry_other (c d : string) (es : list (string * node)) :
  d <> c -> find_entry d (remove_entry c es) = find_entry d es.
Proof.
  intros Hd. induction es as [|[k x] es IH]; simpl; [reflexivity|].
  destruct (String.eqb_spec k c) as [-> | Hk]; simpl.
  - destruct (String.eqb_spec c d) as [-> | _]; [contradiction | reflexivity].
  - now rewrite IH.
Qed.

Lemma find_remove_entry (c : string) (es : list (string * node)) :
  distinct (map fst es) = true -> find_entry c (remove_entry c es) = None.
Proof.
  induction es as [|[k x] es IH]; simpl; [reflexivity|].
  intros H. apply andb_true_iff in H as [Hk Hes]. apply negb_true_iff in Hk.
  destruct (String.eqb_spec k c) as [-> | Hne].
  - now apply find_entry_absent.
  - simpl. apply String.eqb_neq in Hne. rewrite Hne. now apply IH.
Qed.


Lemma existsb_set_entry (c k : string) (v : node) (es : list (string * node)) :
  k <> c ->
  existsb (String.eqb k) (map fst (set_entry c v es))
  = existsb (String.eqb k) (map fst es).
Proof.
  intros Hk. induction es as [|[d x] es IH]; simpl.
  - apply String.eqb_neq in Hk. now rewrite Hk.
  - destruct (String.eqb d c); simpl; [reflexivity | now rewrite IH].
Qed.

Lemma existsb_remove_entry (c k : string) (es : list (string * node)) :
  existsb (String.eqb k) (map fst es) = false ->
  existsb (String.eqb k) (map fst (remove_entry c es)) = false.
Proof.
  induction es as [|[d x] es IH]; simpl; [reflexivity|].
  intros H. apply orb_false_iff in H as [Hd Hes].
  destruct (String.eqb d c); simpl; [exact Hes|].
  rewrite Hd. now apply IH.
Qed.

(** *** Well-formed trees stay well formed *)

Lemma wf_dir_inv (es : list (string * node)) :
  wf_node (Dir es) = true ->
  forallb (fun e => valid_name (fst e)) es = true
  /\ distinct (map fst es) = true
  /\ forallb (fun e => wf_node (snd e)) es = true.
Proof.
  simpl. intros H. apply andb_true_iff in H as [H H3].
  apply andb_true_iff in H as [H1 H2]. auto.
Qed.

Lemma wf_dir_intro (es : list (string * node)) :
  forallb (fun e => valid_name (fst e)) es = true ->
  distinct (map fst es) = true ->
  forallb (fun e => wf_node (snd e)) es = true ->
  wf_node (Dir es) = true.
Proof. simpl. intros -> -> ->. reflexivity. Qed.

Lemma wf_find_entry (c : string) (es : list (string * node)) (n : node) :
  wf_node (Dir es) = true -> find_entry c es = Some n -> wf_node n = true.
Proof.
  intros Hwf H. apply find_entry_Some_In in H.
  now apply (wf_node_entry es (c, n)).
Qed.

Lemma wf_set_entry (c : string) (v : node) (es : list (string * node)) :
  wf_node (Dir es) = true -> valid_name c = true -> wf_node v = true ->
  wf_node (Dir (set_entry c v es)) = true.
Proof.
  intros Hwf Hc Hv. destruct (wf_dir_inv es Hwf) as (H1 & H2 & H3).
  clear Hwf. apply wf_dir_intro.
  - induction es as [|[k x] es IH]; simpl in *; [now rewrite Hc|].
    apply andb_true_iff in H1 as [Hk H1].
    apply andb_true_iff in H2 as [_ H2]. apply andb_true_iff in H3 as [_ H3].
    destruct (String.eqb k c); simpl; rewrite Hk; [exact H1 | now apply IH].
  - induction es as [|[k x] es IH]; simpl in *; [reflexivity|].
    apply andb_true_iff in H1 as [_ H1].
    apply andb_true_iff in H2 as [Hk H2]. apply andb_true_iff in H3 as [_ H3].
    destruct (String.eqb_spec k c) as [-> | Hne]; simpl.
    + now rewrite Hk, H2.
    + rewrite existsb_set_entry by exact Hne. rewrite Hk. now apply IH.
  - induction es as [|[k x] es IH]; simpl in *; [now rewrite Hv|].
    apply andb_true_iff in H1 as [_ H1].
    apply andb_true_iff in H2 as [_ H2]. apply andb_true_iff in H3 as [Hx H3].
    destruct (String.eqb k c); simpl; [now rewrite Hv, H3|].
    rewrite Hx. now apply IH.
Qed.

Lemma wf_remove_entry (c : string) (es : list (string * node)) :
  wf_node (Dir es) = true -> wf_node (Dir (remove_entry c es)) = true.
Proof.
  intros Hwf. destruct (wf_dir_inv es Hwf) as (H1 & H2 & H3).
  clear Hwf. apply wf_dir_intro.
  - induction es as [|[k x] es IH]; simpl in *; [reflexivity|].
    apply andb_true_iff in H1 as [Hk H1].
    apply andb_true_iff in H2 as [_ H2]. apply andb_true_iff in H3 as [_ H3].
    destruct (String.eqb k c); simpl; [exact H1|]. rewrite Hk. now apply IH.
  - induction es as [|[k x] es IH]; simpl in *; [reflexivity|].
    apply andb_true_iff in H1 as [_ H1].
    apply andb_true_iff in H2 as [Hk H2]. apply andb_true_iff in H3 as [_ H3].
    destruct (String.eqb k c); simpl; [exact H2|].
    apply negb_true_iff in Hk. rewrite (existsb_remove_entry c k es Hk).
    now apply IH.
  - induction es as [|[k x] es IH]; simpl in *; [reflexivity|].
    apply andb_true_iff in H1 as [_ H1].
    apply andb_true_iff in H2 as [_ H2]. apply andb_true_iff in H3 as [Hx H3].
    destruct (String.eqb k c); simpl; [exact H3|]. rewrite Hx. now apply IH.
Qed.

Lemma valid_components (p : string) :
  Forall (fun c => valid_name c = true) (path_components p).
Proof.
  unfold path_components. apply Forall_forall. intros c Hc.
  apply filter_In in Hc as [Hin Hne].
  pose proof (split_no_sep p posixpath.sep) as Hsep.
  rewrite Forall_forall in Hsep. unfold valid_name.
  now rewrite Hne, (Hsep c Hin).
Qed.

Lemma wf_makedirs_in (name : string) (comps : list string) :
  Forall (fun c => valid_name c = true) comps ->
  forall here n n',
    wf_node n = true ->
    makedirs_in name here n comps = inr n' ->
    wf_node n' = true.
Proof.
  induction 1 as [|c cs Hc Hcs IH]; intros here n n' Hwf H.
  - destruct n; simpl in H; [discriminate|]. now injection H as <-.
  - destruct n as [t d | es]; simpl in H; [discriminate|].
    destruct (makedirs_in name (here ++ [c]) _ cs) as [e | child'] eqn:Hm;
      [discriminate|].
    injection H as <-. apply wf_set_entry; [exact Hwf | exact Hc |].
    eapply IH; [|exact Hm].
    destruct (find_entry c es) as [child|] eqn:Hf; [|reflexivity].
    now apply (wf_find_entry c es).
Qed.

Lemma wf_write_in (name : string) (now : Z) (data : string) (comps : list string) :
  Forall (fun c => valid_name c = true) comps ->
  forall n n',
    wf_node n = true ->
    write_in name now data n comps = inr n' ->
    wf_node n' = true.
Proof.
  induction 1 as [|c cs Hc Hcs IH]; intros n n' Hwf H.
  - destruct n; simpl in H; [|discriminate]. now injection H as <-.
  - destruct n as [t d | es]; simpl in H; [discriminate|].
    destruct (find_entry c es) as [child|] eqn:Hf.
    + destruct (write_in name now data child cs) as [e | child'] eqn:Hw;
        [discriminate|].
      injection H as <-. apply wf_set_entry; [exact Hwf | exact Hc |].
      eapply IH; [|exact Hw]. now apply (wf_find_entry c es).
    + destruct cs; [|discriminate]. injection H as <-.
      now apply wf_set_entry.
Qed.

Lemma wf_remove_in (name : string) (comps : list string) :
  Forall (fun c => valid_name c = true) comps ->
  forall n n',
    wf_node n = true ->
    remove_in name n comps = inr n' ->
    wf_node n' = true.
Proof.
  induction 1 as [|c cs Hc Hcs IH]; intros n n' Hwf H; [discriminate|].
  destruct n as [t d | es]; simpl in H; [discriminate|].
  destruct (find_entry c es) as [child|] eqn:Hf; [|discriminate].
  destruct cs as [|c' cs'].
  - destruct child; [|discriminate]. injection H as <-.
    now apply wf_remove_entry.
  - destruct (remove_in name child (c' :: cs')) as [e | child'] eqn:Hr;
      [discriminate|].
    injection H as <-. apply wf_set_entry; [exact Hwf | exact Hc |].
    eapply IH; [|exact Hr]. now apply (wf_find_entry c es).
Qed.

(** *** What a removal, a write and [makedirs] leave in place *)

Lemma lookup_file_nil (t : Z) (d : string) (q : list string) (n : node) :
  lookup (File t d) q = Some n -> q = [].
Proof. destruct q; [reflexivity | discriminate]. Qed.

(** After [remove_in] nothing is found under the path. *)
Lemma lookup_remove_in (name : string) (comps : list string) :
  forall n n',
    wf_node n = true ->
    remove_in name n comps = inr n' ->
    lookup n' comps = None.
Proof.
  induction comps as [|c cs IH]; intros n n' Hwf H; [discriminate|].
  destruct n as [t d | es]; simpl in H; [discriminate|].
  destruct (find_entry c es) as [child|] eqn:Hf; [|discriminate].
  destruct cs as [|c' cs'].
  - destruct child; [|discriminate]. injection H as <-. simpl.
    rewrite find_remove_entry; [reflexivity|].
    now destruct (wf_dir_inv es Hwf) as (_ & H2 & _).
  - destruct (remove_in name child (c' :: cs')) as [e | child'] eqn:Hr;
      [discriminate|].
    injection H as <-.
    change (lookup (Dir (set_entry c child' es)) (c :: c' :: cs'))
      with (match find_entry c (set_entry c child' es) with
            | Some n' => lookup n' (c' :: cs')
            | None => None
            end).
    rewrite find_set_entry. eapply IH; [|exact Hr].
    now apply (wf_find_entry c es).
Qed.

(** [remove_in] succeeds on a regular file. *)
Lemma remove_in_file (name : string) (comps : list string) :
  forall n t d,
    comps <> [] ->
    lookup n comps = Some (File t d) ->
    exists n', remove_in name n comps = inr n'.
Proof.
  induction comps as [|c cs IH]; intros n t d Hne H; [congruence|].
  destruct n as [t0 d0 | es]; simpl in H; [discriminate|].
  destruct (find_entry c es) as [child|] eqn:Hf; [|discriminate].
  simpl. rewrite Hf. destruct cs as [|c' cs'].
  - simpl in H. injection H as ->. eexists. reflexivity.
  - destruct (IH child t d) as [child' Hr]; [discriminate | exact H |].
    rewrite Hr. eexists. reflexivity.
Qed.

(** A regular file elsewhere is left as it is by [remove_in]. *)
Lemma remove_in_frame (name : string) (comps : list string) :
  forall n n' q t d,
    remove_in name n comps = inr n' ->
    q <> comps ->
    lookup n q = Some (File t d) ->
    lookup n' q = Some (File t d).
Proof.
  induction comps as [|c cs IH]; intros n n' q t d H Hq Hl; [discriminate|].
  destruct n as [t0 d0 | es]; simpl in H; [discriminate|].
  destruct q as [|k qs]; [discriminate|].
  destruct (find_entry c es) as [child|] eqn:Hf; [|discriminate].
  simpl in Hl.
  destruct (String.eqb_spec k c) as [-> | Hk].
  - rewrite Hf in Hl. destruct cs as [|c' cs'].
    + destruct child as [t1 d1 | es1]; [|discriminate].
      apply lookup_file_nil in Hl. congruence.
    + destruct (remove_in name child (c' :: cs')) as [e | child'] eqn:Hr;
        [discriminate|].
      injection H as <-. simpl. rewrite find_set_entry.
      eapply IH; [exact Hr | congruence | exact Hl].
  - destruct cs as [|c' cs'].
    + destruct child; [|discriminate]. injection H as <-. simpl.
      now rewrite find_remove_entry_other.
    + destruct (remove_in name child (c' :: cs')) as [e | child'] eqn:Hr;
        [discriminate|].
      injection H as <-. simpl. now rewrite find_set_entry_other.
Qed.

(** A regular file elsewhere is left as it is by [write_in]. *)
Lemma write_in_frame (name : string) (now : Z) (data : string) (comps : list string) :
  forall n n' q t d,
    write_in name now data n comps = inr n' ->
    q <> comps ->
    lookup n q = Some (File t d) ->
    lookup n' q = Some (File t d).
Proof.
  induction comps as [|c cs IH]; intros n n' q t d H Hq Hl.
  - destruct n as [t0 d0 | es]; simpl in H; [|discriminate].
    apply lookup_file_nil in Hl. congruence.
  - destruct n as [t0 d0 | es]; simpl in H; [discriminate|].
    destruct q as [|k qs]; [discriminate|].
    simpl in Hl.
    destruct (String.eqb_spec k c) as [-> | Hk].
    + destruct (find_entry c es) as [child|] eqn:Hf; [|discriminate].
      destruct (write_in name now data child cs) as [e | child'] eqn:Hw;
        [discriminate|].
      injection H as <-. simpl. rewrite find_set_entry.
      eapply IH; [exact Hw | congruence | exact Hl].
    + destruct (find_entry c es) as [child|] eqn:Hf.
      * destruct (write_in name now data child cs) as [e | child'] eqn:Hw;
          [discriminate|].
        injection H as <-. simpl. now rewrite find_set_entry_other.
      * destruct cs; [|discriminate]. injection H as <-. simpl.
        now rewrite find_set_entry_other.
Qed.

(** Every regular file is left as it is by [makedirs_in]. *)
Lemma makedirs_in_frame (name : string) (comps : list string) :
  forall here n n' q t d,
    makedirs_in name here n comps = inr n' ->
    lookup n q = Some (File t d) ->
    lookup n' q = Some (File t d).
Proof.
  induction comps as [|c cs IH]; intros here n n' q t d H Hl.
  - destruct n; simpl in H; [discriminate|]. now injection H as <-.
  - destruct n as [t0 d0 | es]; simpl in H; [discriminate|].
    destruct (makedirs_in name (here ++ [c]) _ cs) as [e | child'] eqn:Hm;
      [discriminate|].
    injection H as <-.
    destruct q as [|k qs]; [discriminate|]. simpl in Hl. simpl.
    destruct (String.eqb_spec k c) as [-> | Hk].
    + rewrite find_set_entry.
      destruct (find_entry c es) as [child|] eqn:Hf; [|discriminate].
      eapply IH; [exact Hm | exact Hl].
    + now rewrite find_set_entry_other.
Qed.

Lemma makedirs_in_dir (name : string) (comps here : list string) (n n' : node) :
  makedirs_in name here n comps = inr n' -> is_dir n' = true.
Proof.
  destruct n as [t d | es]; destruct comps as [|c cs]; simpl;
    try discriminate.
  - now intros [= <-].
  - destruct (makedirs_in _ _ _ _); [discriminate|]. now intros [= <-].
Qed.

Lemma write_in_comps (name : string) (now : Z) (data : string)
    (comps : list string) (n n' : node) :
  is_dir n = true -> write_in name now data n comps = inr n' -> comps <> [].
Proof.
  destruct comps; [|discriminate]. destruct n; simpl; discriminate.
Qed.

(** ** Deleting *)

Section Delete.

Variables root cwd : string.

Lemma file_read_not_found (op : FileOperation) (w : world) (safe : string) :
  sanitize_path root cwd (path op) = inr safe ->
  fs_lookup (fs w) safe = None ->
  fst (file_read root cwd op w) = inr (error_json "File not found").
Proof.
  intros Hs E. unfold_tool. simpl. rewrite Hs. simpl.
  repeat (rewrite E; simpl). reflexivity.
Qed.

(** What [file_delete] does on a regular file. *)
Lemma file_delete_regular (op : FileOperation) (w : world) (safe : string)
    (t : Z) (data : string) (fs' : node) :
  sanitize_path root cwd (path op) = inr safe ->
  fs_lookup (fs w) safe = Some (File t data) ->
  remove_in safe (fs w) (path_components safe) = inr fs' ->
  file_delete root cwd op w
  = (inr (success_delete (path op)),
     mkWorld fs' (clock w)
       (log w ++ [LogInfo ("Attempting to delete file: " ++ path op);
                  Progress 50 100; Progress 100 100])).
Proof.
  intros Hs E Hr. unfold_tool. simpl. rewrite Hs. simpl.
  repeat (rewrite E; simpl). rewrite Hr. simpl.
  unfold success_delete. now rewrite <- !app_assoc.
Qed.

(** What [file_delete] does when no regular file is there. *)
Lemma file_delete_no_file (op : FileOperation) (w : world) (safe : string) :
  sanitize_path root cwd (path op) = inr safe ->
  (fs_lookup (fs w) safe = None ->
   file_delete root cwd op w
   = (inr (error_json "File not found"),
      emitted w [LogInfo ("Attempting to delete file: " ++ path op);
                 LogError ("File not found: " ++ path op)]))
  /\ (forall es, fs_lookup (fs w) safe = Some (Dir es) ->
      file_delete root cwd op w
      = (inr (error_json "Path is not a file"),
         emitted w [LogInfo ("Attempting to delete file: " ++ path op);
                    LogError ("Path is not a file: " ++ path op)])).
Proof.
  intros Hs. split; [intros E | intros es E];
    unfold_tool; simpl; rewrite Hs; simpl; repeat (rewrite E; simpl);
    unfold emitted; simpl; now rewrite <- !app_assoc.
Qed.

(** What a successful [file_delete] has done. *)
Lemma file_delete_success (op : FileOperation) (w : world) (j : json) :
  fst (file_delete root cwd op w) = inr j ->
  is_success j ->
  exists (safe : string) (t : Z) (data : string) (fs' : node),
    sanitize_path root cwd (path op) = inr safe
    /\ fs_lookup (fs w) safe = Some (File t data)
    /\ remove_in safe (fs w) (path_components safe) = inr fs'
    /\ snd (file_delete root cwd op w)
       = mkWorld fs' (clock w)
           (log w ++ [LogInfo ("Attempting to delete file: " ++ path op);
                      Progress 50 100; Progress 100 100]).
Proof.
  unfold is_success. unfold_tool. simpl.
  destruct (sanitize_path root cwd (path op)) as [e | safe] eqn:Hs; simpl.
  { intros [= <-]. discriminate. }
  destruct (fs_lookup (fs w) safe) as [[t data | es] |] eqn:E;
    simpl; repeat (rewrite E; simpl).
  - destruct (remove_in safe (fs w) (path_components safe)) as [e | fs'] eqn:Hr;
      simpl.
    { intros [= <-]. discriminate. }
    intros _ _. exists safe, t, data, fs'.
    split; [reflexivity|]. split; [exact E|]. split; [exact Hr|].
    now rewrite <- !app_assoc.
  - intros [= <-]. discriminate.
  - intros [= <-]. discriminate.
Qed.

(** X5. In a well-formed file system, after [file_delete] has reported
    success the path holds nothing: reading it and deleting it again both
    answer "File not found". *)
Theorem file_delete_then_gone (op : FileOperation) (any : option string)
    (w : world) (j : json) :
  wf_node (fs w) = true ->
  fst (file_delete root cwd op w) = inr j ->
  is_success j ->
  fst (file_read root cwd (mkFileOperation (path op) any)
         (snd (file_delete root cwd op w)))
  = inr (error_json "File not found")
  /\ fst (file_delete root cwd (mkFileOperation (path op) any)
            (snd (file_delete root cwd op w)))
     = inr (error_json "File not found").
Proof.
  intros Hwf Hj Hok.
  destruct (file_delete_success op w j Hj Hok)
    as (safe & t & data & fs' & Hs & _ & Hr & ->).
  assert (Hgone : fs_lookup fs' safe = None)
    by (eapply lookup_remove_in; [exact Hwf | exact Hr]).
  split.
  - eapply file_read_not_found; [exact Hs | exact Hgone].
  - destruct (file_delete_no_file (mkFileOperation (path op) any)
                (mkWorld fs' (clock w)
                   (log w ++ [LogInfo ("Attempting to delete file: " ++ path op);
                              Progress 50 100; Progress 100 100])) safe Hs)
      as [Hnone _].
    now rewrite (Hnone Hgone).
Qed.

(** X6. [file_delete] removes regular files only: on an accepted path that
    holds nothing it answers "File not found", on a directory "Path is not
    a file", and in both cases the file system is left as it was. *)
Theorem file_delete_only_regular_files (op : FileOperation) (w : world)
    (safe : string) :
  sanitize_path root cwd (path op) = inr safe ->
  (fs_lookup (fs w) safe = None ->
   fst (file_delete root cwd op w) = inr (error_json "File not found")
   /\ fs (snd (file_delete root cwd op w)) = fs w)
  /\ (forall es, fs_lookup (fs w) safe = Some (Dir es) ->
      fst (file_delete root cwd op w) = inr (error_json "Path is not a file")
      /\ fs (snd (file_delete root cwd op w)) = fs w).
Proof.
  intros Hs. destruct (file_delete_no_file op w safe Hs) as [Hnone Hdir].
  split.
  - intros E. now rewrite (Hnone E).
  - intros es E. now rewrite (Hdir es E).
Qed.

(** X7. Whatever its outcome, [file_delete] leaves every other regular file
    as it was: a file found under a path with other components than the
    path to delete is found unchanged afterwards. *)
Theorem file_delete_keeps_other_files (op : FileOperation) (w : world)
    (other : string) (t : Z) (data : string) :
  fs_lookup (fs w) other = Some (File t data) ->
  (forall safe, sanitize_path root cwd (path op) = inr safe ->
                path_components other <> path_components safe) ->
  fs_lookup (fs (snd (file_delete root cwd op w))) other = Some (File t data).
Proof.
  intros Hother Hdiff.
  destruct (fst (file_delete root cwd op w)) as [e | j] eqn:Hj.
  - revert Hj. unfold_tool. simpl.
    destruct (sanitize_path root cwd (path op)); simpl; [discriminate|].
    destruct (fs_lookup (fs w) s) as [[? ? | ?] |] eqn:E;
      simpl; repeat (rewrite E; simpl); try discriminate.
    destruct (remove_in _ _ _); discriminate.
  - revert Hj. unfold_tool. simpl.
    destruct (sanitize_path root cwd (path op)) as [e | safe] eqn:Hs; simpl;
      [intros _; exact Hother|].
    destruct (fs_lookup (fs w) safe) as [[t0 d0 | es] |] eqn:E;
      simpl; repeat (rewrite E; simpl); try (intros _; exact Hother).
    destruct (remove_in safe (fs w) (path_components safe)) as [e | fs'] eqn:Hr;
      simpl; intros _; [exact Hother|].
    unfold fs_lookup in *.
    eapply remove_in_frame; [exact Hr | now apply Hdiff | exact Hother].
Qed.

End Delete.

(** ** Writing *)

Section Write2.

Variables root cwd : string.

(** X8. Whatever its outcome, [file_write] leaves every other regular file
    as it was: a file found under a path with other components than the
    path to write is found afterwards with the same text and time stamp,
    also when directories were created on the way. *)
Theorem file_write_keeps_other_files (op : FileOperation) (w : world)
    (other : string) (t : Z) (data : string) :
  fs_lookup (fs w) other = Some (File t data) ->
  (forall safe, sanitize_path root cwd (path op) = inr safe ->
                path_components other <> path_components safe) ->
  fs_lookup (fs (snd (file_write root cwd op w))) other = Some (File t data).
Proof.
  intros Hother Hdiff. unfold_tool. simpl.
  destruct (not_content (content op)); simpl; [exact Hother|].
  destruct (sanitize_path root cwd (path op)) as [e | safe] eqn:Hs; simpl;
    [exact Hother|].
  destruct (makedirs_in _ _ _ _) as [e | fs1] eqn:Hm; simpl; [exact Hother|].
  assert (H1 : fs_lookup fs1 other = Some (File t data))
    by (eapply makedirs_in_frame; [exact Hm | exact Hother]).
  destruct (write_in _ _ _ _ _) as [e | fs2] eqn:Hw; simpl; [exact H1|].
  eapply write_in_frame; [exact Hw | now apply Hdiff | exact H1].
Qed.

Lemma file_write_wf (op : FileOperation) (w : world) :
  wf_node (fs w) = true -> wf_node (fs (snd (file_write root cwd op w))) = true.
Proof.
  intros Hwf. unfold_tool. simpl.
  destruct (not_content (content op)); simpl; [exact Hwf|].
  destruct (sanitize_path root cwd (path op)) as [e | safe]; simpl; [exact Hwf|].
  destruct (makedirs_in _ _ _ _) as [e | fs1] eqn:Hm; simpl; [exact Hwf|].
  assert (H1 : wf_node fs1 = true)
    by (eapply wf_makedirs_in; [apply valid_components | exact Hwf | exact Hm]).
  destruct (write_in _ _ _ _ _) as [e | fs2] eqn:Hw; simpl; [exact H1|].
  eapply wf_write_in; [apply valid_components | exact H1 | exact Hw].
Qed.

Lemma file_delete_wf (op : FileOperation) (w : world) :
  wf_node (fs w) = true -> wf_node (fs (snd (file_delete root cwd op w))) = true.
Proof.
  intros Hwf. unfold_tool. simpl.
  destruct (sanitize_path root cwd (path op)) as [e | safe]; simpl; [exact Hwf|].
  destruct (fs_lookup (fs w) safe) as [[t0 d0 | es] |] eqn:E;
    simpl; repeat (rewrite E; simpl); try exact Hwf.
  destruct (remove_in safe (fs w) (path_components safe)) as [e | fs'] eqn:Hr;
    simpl; [exact Hwf|].
  eapply wf_remove_in; [apply valid_components | exact Hwf | exact Hr].
Qed.

(** X9. The tools keep the file system well formed: when the names of every
    directory are non-empty, free of [/] and pairwise distinct before a
    [file_write] or a [file_delete], they are so after it, whatever the
    request and the outcome. *)
Theorem writing_and_deleting_keep_well_formed (op : FileOperation) (w : world) :
  wf_node (fs w) = true ->
  wf_node (fs (snd (file_write root cwd op w))) = true
  /\ wf_node (fs (snd (file_delete root cwd op w))) = true.
Proof.
  intros Hwf. split; [now apply file_write_wf | now apply file_delete_wf].
Qed.

(** X10. Write, delete, read: in a well-formed file system, after a
    [file_write] that reported success, [file_delete] of the same path
    reports success, and a [file_read] after that answers "File not
    found". *)
Theorem write_delete_read (p c : string) (any : option string) (w : world) (j : json) :
  wf_node (fs w) = true ->
  fst (file_write root cwd (mkFileOperation p (Some c)) w) = inr j ->
  is_success j ->
  let w1 := snd (file_write root cwd (mkFileOperation p (Some c)) w) in
  let w2 := snd (file_delete root cwd (mkFileOperation p any) w1) in
  fst (file_delete root cwd (mkFileOperation p any) w1) = inr (success_delete p)
  /\ fst (file_read root cwd (mkFileOperation p any) w2)
     = inr (error_json "File not found").
Proof.
  intros Hwf Hj Hok w1 w2.
  pose proof (file_write_wf (mkFileOperation p (Some c)) w Hwf) as Hwf1.
  destruct (file_write_success root cwd _ w j Hj Hok)
    as (c' & safe & fs1 & fs2 & _ & _ & Hs & Hm & Hw & Hw1).
  simpl in Hs. fold w1 in Hw1, Hwf1.
  assert (Hfile : fs_lookup (fs w1) safe = Some (File (clock w) c')).
  { rewrite Hw1. simpl. unfold fs_lookup. eapply lookup_write_in, Hw. }
  assert (Hne : path_components safe <> []).
  { eapply write_in_comps; [|exact Hw]. eapply makedirs_in_dir, Hm. }
  destruct (remove_in_file safe (path_components safe) (fs w1) _ _ Hne Hfile)
    as [fs3 Hr].
  pose proof (file_delete_regular root cwd (mkFileOperation p any) w1 safe _ _ fs3
                Hs Hfile Hr) as Hdel.
  simpl in Hdel. split.
  - now rewrite Hdel.
  - unfold w2. rewrite Hdel. simpl.
    eapply file_read_not_found; [exact Hs|]. simpl.
    eapply lookup_remove_in; [exact Hwf1 | exact Hr].
Qed.

End Write2.

(** ** No exception leaves a tool, and no error goes unreported *)

Ltac report_success :=
  eexists; split; [reflexivity | left; reflexivity].

Ltac report_error :=
  eexists; split; [reflexivity|]; right; split; [reflexivity|];
  eexists; eexists; split;
  [ simpl; rewrite <- ?app_assoc; reflexivity
  | rewrite ?in_app_iff; simpl; repeat (first [left; reflexivity | right]) ].

Section Reports.

Variables root cwd : string.

Lemma file_read_reports (op : FileOperation) (w : world) :
  reports (file_read root cwd op w) w.
Proof.
  unfold reports. unfold_tool. simpl.
  destruct (sanitize_path root cwd (path op)) as [e | safe]; simpl.
  { report_error. }
  destruct (fs_lookup (fs w) safe) as [[t data | es] |] eqn:E;
    simpl; repeat (rewrite E; simpl).
  - destruct (Py.utf8_len data >? MAX_FILE_SIZE); simpl; repeat (rewrite E; simpl).
    + report_error.
    + report_success.
  - report_error.
  - report_error.
Qed.

Lemma file_write_reports (op : FileOperation) (w : world) :
  reports (file_write root cwd op w) w.
Proof.
  unfold reports. unfold_tool. simpl.
  destruct (not_content (content op)); simpl.
  { report_error. }
  destruct (sanitize_path root cwd (path op)) as [e | safe]; simpl.
  { report_error. }
  destruct (makedirs_in _ _ _ _) as [e | fs1]; simpl.
  { report_error. }
  destruct (write_in _ _ _ _ _) as [e | fs2]; simpl.
  { report_error. }
  report_success.
Qed.

Lemma file_delete_reports (op : FileOperation) (w : world) :
  reports (file_delete root cwd op w) w.
Proof.
  unfold reports. unfold_tool. simpl.
  destruct (sanitize_path root cwd (path op)) as [e | safe]; simpl.
  { report_error. }
  destruct (fs_lookup (fs w) safe) as [[t data | es] |] eqn:E;
    simpl; repeat (rewrite E; simpl).
  - destruct (remove_in _ _ _) as [e | fs']; simpl.
    + report_error.
    + report_success.
  - report_error.
  - report_error.
Qed.

Lemma folder_analysis_reports (folder : FolderAnalysis) (w : world) :
  reports (folder_analysis root cwd folder w) w.
Proof.
  unfold reports. unfold_tool. simpl.
  destruct (sanitize_path root cwd (folder_path folder)) as [e | safe]; simpl.
  { report_error. }
  destruct (fs_lookup (fs w) safe) as [[t data | es] |] eqn:E;
    simpl; repeat (rewrite E; simpl).
  - report_error.
  - match goal with
    | |- context [for_each ?l ?b ?s ?w0] =>
        destruct (for_each_only_logs b (analyse_level_only_logs root cwd) l s w0)
          as [evs Hevs];
        destruct (for_each l b s w0) as [[e | acc] w1]
    end; simpl in Hevs; subst w1; simpl.
    + report_error.
    + report_success.
  - report_error.
Qed.

(** X11. Each of the four tools returns a dictionary whose status is
    "success" or "error" and raises no exception, whatever the request and
    the file system; and whenever the status is "error", the call has sent
    an error message to the context. *)
Theorem tools_report_their_errors (op : FileOperation) (folder : FolderAnalysis)
    (w : world) :
  reports (file_read root cwd op w) w
  /\ reports (file_write root cwd op w) w
  /\ reports (file_delete root cwd op w) w
  /\ reports (folder_analysis root cwd folder w) w.
Proof.
  repeat split.
  - apply file_read_reports.
  - apply file_write_reports.
  - apply file_delete_reports.
  - apply folder_analysis_reports.
Qed.

End Reports.

(** ** Paths of ordinary names are accepted *)

Lemma plain_nonempty (c : string) : plain c -> posixpath.nonempty c = true.
Proof.
  intros (_ & Hne & _). unfold posixpath.nonempty.
  apply String.eqb_neq in Hne. now rewrite Hne.
Qed.

Lemma filter_nonempty_plain (l : list string) :
  Forall plain l -> filter posixpath.nonempty l = l.
Proof.
  induction 1 as [|c l Hc Hl IH]; [reflexivity|].
  simpl. now rewrite (plain_nonempty c Hc), IH.
Qed.

Lemma normpath_step_keeps (acc : list string) (c : string) :
  plain c -> posixpath.normpath_step 1 acc c = (acc ++ [c])%list.
Proof.
  intros (_ & H1 & H2 & H3). unfold posixpath.normpath_step.
  apply String.eqb_neq in H1, H2, H3. now rewrite H1, H2, H3.
Qed.

(** Over plain and empty components the loop of [normpath] drops the empty
    ones and keeps the others. *)
Lemma normpath_fold_keeps (l : list string) :
  Forall (fun c => plain c \/ c = "") l ->
  forall acc,
    fold_left (posixpath.normpath_step 1) l acc
    = (acc ++ filter posixpath.nonempty l)%list.
Proof.
  induction 1 as [|c l Hc Hl IH]; intros acc; simpl.
  - now rewrite app_nil_r.
  - rewrite IH. destruct Hc as [Hc | ->].
    + rewrite (normpath_step_keeps acc c Hc), (plain_nonempty c Hc).
      now rewrite <- app_assoc.
    + reflexivity.
Qed.

Lemma prefix_empty (s : string) : String.prefix "" s = true.
Proof. now destruct s. Qed.

Lemma prefix_append (a b : string) : String.prefix a (a ++ b) = true.
Proof.
  induction a as [|x a IH]; [apply prefix_empty|].
  rewrite append_String. cbn [String.prefix].
  destruct (ascii_dec x x); [exact IH | congruence].
Qed.

Lemma prefix_append_cancel (a u v : string) :
  String.prefix (a ++ u) (a ++ v) = String.prefix u v.
Proof.
  induction a as [|x a IH]; [reflexivity|].
  rewrite !append_String. cbn [String.prefix].
  destruct (ascii_dec x x); [exact IH | congruence].
Qed.

Lemma join_cons (x y : string) (l : list string) :
  Py.join "/" (x :: y :: l) = x ++ String posixpath.sep (Py.join "/" (y :: l)).
Proof. reflexivity. Qed.

Lemma prefix_join (l1 l2 : list string) :
  String.prefix (Py.join "/" l1) (Py.join "/" (l1 ++ l2)) = true.
Proof.
  induction l1 as [|x l1 IH]; [apply prefix_empty|].
  destruct l1 as [|y l1].
  - destruct l2 as [|z l2].
    + change (Py.join "/" [x]) with x. simpl app.
      change (Py.join "/" [x]) with x.
      rewrite <- (append_empty x) at 2. apply prefix_append.
    + simpl app. rewrite join_cons. change (Py.join "/" [x]) with x.
      apply prefix_append.
  - change ((x :: y :: l1) ++ l2)%list with (x :: y :: (l1 ++ l2))%list.
    rewrite !join_cons, prefix_append_cancel. cbn [String.prefix].
    destruct (ascii_dec posixpath.sep posixpath.sep); [exact IH | congruence].
Qed.

Lemma split_sep_first (s : string) :
  Py.split (String posixpath.sep s) posixpath.sep = "" :: Py.split s posixpath.sep.
Proof. reflexivity. Qed.

Lemma plain_no_sep (l : list string) :
  Forall plain l -> Forall (fun x => Py.contains x posixpath.sep = false) l.
Proof. intros H. eapply Forall_impl; [|exact H]. now intros c (Hc & _). Qed.

(** The components of a path written from plain names are these names. *)
Lemma split_join_plain (l : list string) :
  Forall plain l ->
  Forall (fun c => plain c \/ c = "") (Py.split (Py.join "/" l) posixpath.sep)
  /\ filter posixpath.nonempty (Py.split (Py.join "/" l) posixpath.sep) = l.
Proof.
  intros H. destruct l as [|c l].
  - split; [repeat constructor; now right | reflexivity].
  - rewrite split_join; [|discriminate | now apply plain_no_sep].
    split; [|now apply filter_nonempty_plain].
    eapply Forall_impl; [|exact H]. intros x Hx. now left.
Qed.

Lemma components_path_of (l : list string) :
  Forall plain l ->
  Forall (fun c => plain c \/ c = "") (Py.split (path_of l) posixpath.sep)
  /\ path_components (path_of l) = l.
Proof.
  intros H. destruct (split_join_plain l H) as [H1 H2].
  unfold path_components, path_of.
  change ("/" ++ Py.join "/" l) with (String posixpath.sep (Py.join "/" l)).
  rewrite split_sep_first. split.
  - constructor; [now right | exact H1].
  - simpl. exact H2.
Qed.

Lemma first_not_sep (l : list string) :
  Forall plain l -> Py.startswith (Py.join "/" l) "/" = false.
Proof.
  intros H. destruct l as [|c l]; [reflexivity|].
  inversion H as [|? ? (Hsep & Hne & _) _]; subst.
  destruct c as [|a c]; [congruence|].
  simpl in Hsep. apply orb_false_iff in Hsep as [Ha _].
  assert (Hj : exists r, Py.join "/" (String a c :: l) = String a r).
  { destruct l; [now exists c|]. rewrite join_cons, append_String. eauto. }
  destruct Hj as [r ->]. unfold Py.startswith. cbn [String.prefix].
  destruct (ascii_dec "/" a) as [<- | _]; [discriminate Ha | reflexivity].
Qed.

Lemma lstrip_no_match (s : string) (c : ascii) :
  Py.startswith s (String c "") = false -> Py.lstrip s c = s.
Proof.
  destruct s as [|a s]; [reflexivity|].
  unfold Py.startswith. cbn [String.prefix]. simpl.
  destruct (ascii_dec c a) as [<- | Hne].
  - now rewrite prefix_empty.
  - intros _. destruct (Ascii.eqb_spec a c); [congruence | reflexivity].
Qed.

Lemma startswith_two_seps (t : string) :
  Py.startswith t "/" = false -> Py.startswith (String "/" t) "//" = false.
Proof.
  unfold Py.startswith. intros H. cbn [String.prefix].
  destruct (ascii_dec "/" "/"); [|reflexivity].
  destruct t as [|a t]; [reflexivity|]. exact H.
Qed.

Lemma startswith_append (a b : string) :
  a <> "" -> Py.startswith (a ++ b) "/" = Py.startswith a "/".
Proof.
  destruct a as [|x a]; [congruence|]. intros _.
  rewrite append_String. unfold Py.startswith. cbn [String.prefix].
  destruct (ascii_dec "/" x); [|reflexivity]. now rewrite !prefix_empty.
Qed.

(** The root joined with a path of plain names: one leading slash, plain or
    empty components, and the names of the root followed by those of the
    path. *)
Lemma join_plain (rcomps comps : list string) :
  Forall plain rcomps -> Forall plain comps ->
  exists t,
    posixpath.join (path_of rcomps) (Py.join "/" comps) = String "/" t
    /\ Py.startswith t "/" = false
    /\ Forall (fun c => plain c \/ c = "") (Py.split (String "/" t) posixpath.sep)
    /\ path_components (String "/" t) = (rcomps ++ comps)%list.
Proof.
  intros Hr Hc.
  destruct (components_path_of rcomps Hr) as [Hr1 Hr2].
  destruct (split_join_plain comps Hc) as [Hc1 Hc2].
  pose proof (first_not_sep rcomps Hr) as Hr3.
  pose proof (first_not_sep comps Hc) as Hc3.
  unfold posixpath.join. rewrite Hc3.
  unfold path_of in *.
  change ("/" ++ Py.join "/" rcomps) with (String "/" (Py.join "/" rcomps)) in *.
  set (J := Py.join "/" rcomps) in *. set (P := Py.join "/" comps) in *.
  change (String "/" J =? "")%string with false. cbn [orb].
  destruct (Py.endswith (String "/" J) posixpath.sep) eqn:E.
  - destruct (endswith_inv _ _ E) as [x Hx].
    exists (J ++ P). rewrite append_String. split; [reflexivity|].
    split.
    { destruct J as [|a J']; [exact Hc3|].
      rewrite startswith_append by discriminate. exact Hr3. }
    rewrite <- append_String, Hx, append_sep.
    rewrite Hx in Hr1, Hr2. unfold path_components in *.
    rewrite split_app in *. rewrite filter_app in *.
    apply Forall_app in Hr1 as [Hr1 _].
    simpl in Hr2. rewrite app_nil_r in Hr2.
    split; [apply Forall_app; now split | now rewrite Hr2, Hc2].
  - exists (J ++ String posixpath.sep P).
    change (String "/" J ++ "/" ++ P) with (String "/" J ++ String posixpath.sep P).
    rewrite append_String. split; [reflexivity|].
    split.
    { destruct J as [|a J']; [discriminate E|].
      rewrite startswith_append by discriminate. exact Hr3. }
    rewrite <- append_String. unfold path_components in *.
    rewrite split_app, filter_app.
    split; [apply Forall_app; now split | now rewrite Hr2, Hc2].
Qed.

(** The normal form of a path with one leading slash and plain or empty
    components. *)
Lemma normpath_plain (t : string) :
  Py.startswith t "/" = false ->
  Forall (fun c => plain c \/ c = "") (Py.split (String "/" t) posixpath.sep) ->
  posixpath.normpath (String "/" t) = path_of (path_components (String "/" t)).
Proof.
  intros Ht Hall. unfold posixpath.normpath.
  change (String "/" t =? "")%string with false. cbv iota.
  change (Py.startswith (String "/" t) "/") with (posixpath.isabs (String "/" t)).
  rewrite isabs_String, (startswith_two_seps t Ht). cbn [andb].
  rewrite (normpath_fold_keeps _ Hall []). reflexivity.
Qed.

(** X12. A relative path written from plain names (non-empty, without [/],
    none of them [.] or [..], and not beginning with a backslash) is always
    accepted: under a root written from plain names, [sanitize_path] returns
    the root followed by these names, a path within the root. *)
Theorem sanitize_path_accepts_names (rcomps comps : list string) (cwd : string) :
  Forall plain rcomps ->
  Forall plain comps ->
  Py.startswith (Py.join "/" comps) "\" = false ->
  sanitize_path (path_of rcomps) cwd (Py.join "/" comps)
  = inr (path_of (rcomps ++ comps))
  /\ within (path_of rcomps) (path_of (rcomps ++ comps)) = true.
Proof.
  intros Hr Hc Hback.
  assert (Hrc : Forall plain (rcomps ++ comps)) by (apply Forall_app; now split).
  split.
  - unfold sanitize_path, posixpath.abspath.
    rewrite (lstrip_no_match _ "/" (first_not_sep comps Hc)).
    rewrite (lstrip_no_match _ "\" Hback).
    destruct (join_plain rcomps comps Hr Hc) as (t & -> & Ht & Hall & Hcomps).
    rewrite isabs_String, (normpath_plain t Ht Hall), Hcomps.
    assert (Hstart : Py.startswith (path_of (rcomps ++ comps)) (path_of rcomps) = true).
    { unfold Py.startswith, path_of.
      change ("/" ++ Py.join "/" rcomps) with (String "/" (Py.join "/" rcomps)).
      change ("/" ++ Py.join "/" (rcomps ++ comps))
        with (String "/" (Py.join "/" (rcomps ++ comps))).
      cbn [String.prefix]. destruct (ascii_dec "/" "/"); [|congruence].
      apply prefix_join. }
    now rewrite Hstart.
  - unfold within.
    destruct (components_path_of rcomps Hr) as [_ ->].
    destruct (components_path_of _ Hrc) as [_ ->].
    apply is_prefix_of_app.
Qed.

Lemma sanitize_path_accepts_names_witness :
  sanitize_path (path_of ["srv"; "data"]) "/" (Py.join "/" ["notes"; "2024"; "a.txt"])
  = inr (path_of (["srv"; "data"] ++ ["notes"; "2024"; "a.txt"]))
  /\ within (path_of ["srv"; "data"])
       (path_of (["srv"; "data"] ++ ["notes"; "2024"; "a.txt"])) = true.
Proof.
  apply (sanitize_path_accepts_names ["srv"; "data"] ["notes"; "2024"; "a.txt"] "/").
  - repeat constructor; discriminate.
  - repeat constructor; discriminate.
  - reflexivity.
Defined.

(** ** The directory of a path *)

Lemma rstrip_spec (s : string) (c : ascii) :
  exists k, s = Py.rstrip s c ++ Py.repeat c k.
Proof.
  induction s as [|a s [k IH]].
  - now exists 0%nat.
  - cbn [Py.rstrip]. destruct (Py.rstrip s c) as [|b r] eqn:E.
    + destruct (Ascii.eqb_spec a c) as [-> | Hne].
      * exists (S k). now rewrite IH at 1.
      * exists k. now rewrite IH at 1.
    + exists k. rewrite append_String. now rewrite IH at 1.
Qed.

Lemma components_trailing_seps (x : string) (k : nat) :
  path_components (x ++ Py.repeat posixpath.sep k) = path_components x.
Proof.
  revert x. induction k as [|k IH]; intros x.
  - cbn [Py.repeat]. now rewrite append_empty.
  - cbn [Py.repeat]. rewrite <- append_sep, IH.
    apply components_trailing_sep.
Qed.

Lemma components_rstrip (s : string) :
  path_components (Py.rstrip s posixpath.sep) = path_components s.
Proof.
  destruct (rstrip_spec s posixpath.sep) as [k Hk].
  rewrite Hk at 2. now rewrite components_trailing_seps.
Qed.

Lemma contains_append_sep (x r : string) :
  Py.contains (x ++ String posixpath.sep r) posixpath.sep = true.
Proof.
  induction x as [|a x IH]; [reflexivity|].
  rewrite append_String. cbn [Py.contains]. rewrite IH. apply orb_true_r.
Qed.

Lemma upto_last_sep_append (x c : string) :
  Py.contains c posixpath.sep = false ->
  posixpath.upto_last_sep (x ++ String posixpath.sep c) = x ++ String posixpath.sep "".
Proof.
  intros Hc. induction x as [|a x IH].
  - change ("" ++ String posixpath.sep c) with (String posixpath.sep c).
    cbn [posixpath.upto_last_sep]. now rewrite Hc.
  - rewrite !append_String. cbn [posixpath.upto_last_sep].
    now rewrite contains_append_sep, IH.
Qed.

(** The components of [dirname] of a path that ends with a name are those
    of the path without the last one. *)
Lemma components_dirname (x c : string) :
  valid_name c = true ->
  path_components (posixpath.dirname (x ++ String posixpath.sep c)) = path_components x
  /\ path_components (x ++ String posixpath.sep c) = (path_components x ++ [c])%list.
Proof.
  intros Hc. split; [|now apply components_app].
  destruct (valid_name_inv c Hc) as [_ Hsep].
  unfold posixpath.dirname. rewrite (upto_last_sep_append x c Hsep).
  destruct (_ && _).
  - rewrite components_rstrip. apply components_trailing_sep.
  - apply components_trailing_sep.
Qed.

Lemma append_assoc (a b c : string) : (a ++ b) ++ c = a ++ (b ++ c).
Proof.
  induction a as [|x a IH]; [reflexivity|].
  rewrite !append_String. now rewrite IH.
Qed.

Lemma join_snoc (l : list string) (c : string) :
  l <> [] -> Py.join "/" (l ++ [c]) = Py.join "/" l ++ String posixpath.sep c.
Proof.
  induction l as [|x l IH]; [congruence|]. intros _.
  destruct l as [|y l].
  - reflexivity.
  - change ((x :: y :: l) ++ [c])%list with (x :: y :: (l ++ [c]))%list.
    rewrite !join_cons.
    change (y :: (l ++ [c]))%list with ((y :: l) ++ [c])%list.
    rewrite IH by discriminate.
    now rewrite append_assoc, append_String.
Qed.

(** The normal form of an absolute path: one or two slashes, then plain
    names separated by single slashes. *)
Lemma normpath_absolute_form (p : string) :
  posixpath.isabs p = true ->
  exists (k : nat) (comps : list string),
    (k = 1 \/ k = 2)%nat
    /\ Forall plain comps
    /\ posixpath.normpath p = Py.repeat posixpath.sep k ++ Py.join "/" comps.
Proof.
  intros Habs. destruct (isabs_inv p Habs) as [r ->].
  unfold posixpath.normpath.
  change (String "/" r =? "")%string with false. cbv iota.
  change (Py.startswith (String "/" r) "/") with (posixpath.isabs (String "/" r)).
  rewrite isabs_String.
  set (k := if Py.startswith (String "/" r) "//" && negb (Py.startswith (String "/" r) "///")
            then 2%nat else 1%nat).
  assert (Hk : (k = 1 \/ k = 2)%nat) by (unfold k; destruct (_ && _); auto).
  exists k, (fold_left (posixpath.normpath_step k)
               (Py.split (String "/" r) posixpath.sep) []).
  split; [exact Hk|]. split.
  - apply normpath_fold_plain; [lia | constructor | apply split_no_sep].
  - destruct Hk as [-> | ->]; reflexivity.
Qed.

Lemma plain_valid (c : string) : plain c -> valid_name c = true.
Proof.
  intros (Hsep & Hne & _). unfold valid_name, posixpath.nonempty.
  apply String.eqb_neq in Hne. now rewrite Hne, Hsep.
Qed.

(** The directory of a path in normal form: the path without its last
    name, or the root itself. *)
Lemma components_dirname_normal (p : string) :
  posixpath.isabs p = true ->
  let safe := posixpath.normpath p in
  (path_components safe = [] /\ path_components (posixpath.dirname safe) = [])
  \/ exists c,
       valid_name c = true
       /\ path_components safe
          = (path_components (posixpath.dirname safe) ++ [c])%list.
Proof.
  intros Habs safe.
  destruct (normpath_absolute_form p Habs) as (k & comps & Hk & Hplain & Hform).
  unfold safe. rewrite Hform. clear Hform safe.
  destruct comps as [|c0 comps0].
  - left. destruct Hk as [-> | ->]; split; reflexivity.
  - right.
    destruct (@exists_last _ (c0 :: comps0)) as (l & c & Hl); [discriminate|].
    rewrite Hl in *. clear Hl.
    apply Forall_app in Hplain as [_ Hc]. inversion Hc as [|? ? Hc' _]; subst.
    pose proof (plain_valid c Hc') as Hvalid.
    exists c. split; [exact Hvalid|].
    assert (Hx : exists x, Py.repeat posixpath.sep k ++ Py.join "/" (l ++ [c])
                           = x ++ String posixpath.sep c).
    { destruct l as [|y l].
      - destruct Hk as [-> | ->]; [now exists "" | now exists "/"].
      - rewrite join_snoc by discriminate. rewrite <- append_assoc. eauto. }
    destruct Hx as [x ->].
    destruct (components_dirname x c Hvalid) as [-> ->]. reflexivity.
Qed.

(** *** A write that fails *)


Section WriteFailure.

Variables root cwd : string.


(** X14. With an absolute root, after a [file_write] that reported success
    the path holds a regular file with the content and the time of the
    write, and the directory of the path exists. *)
Theorem file_write_creates_the_file (op : FileOperation) (w : world) (j : json) :
  posixpath.isabs root = true ->
  fst (file_write root cwd op w) = inr j ->
  is_success j ->
  exists (c safe : string) (es : list (string * node)),
    content op = Some c
    /\ sanitize_path root cwd (path op) = inr safe
    /\ fs_lookup (fs (snd (file_write root cwd op w))) safe
       = Some (File (clock w) c)
    /\ fs_lookup (fs (snd (file_write root cwd op w))) (posixpath.dirname safe)
       = Some (Dir es).
Proof.
  intros Habs Hj Hok.
  destruct (file_write_success root cwd op w j Hj Hok)
    as (c & safe & fs1 & fs2 & Hc & _ & Hs & Hm & Hw & ->).
  assert (Hfile : lookup fs2 (path_components safe) = Some (File (clock w) c))
    by (eapply lookup_write_in, Hw).
  assert (Hsafe : safe = posixpath.normpath
                           (posixpath.join root (Py.lstrip (Py.lstrip (path op) "/") "\"))).
  { pose proof Hs as Hs'. unfold sanitize_path, posixpath.abspath in Hs'.
    rewrite (isabs_join root _ Habs) in Hs'.
    destruct (negb _) in Hs'; [discriminate|]. now injection Hs' as <-. }
  pose proof (components_dirname_normal _
                (isabs_join root (Py.lstrip (Py.lstrip (path op) "/") "\") Habs))
    as Hdir.
  cbv zeta in Hdir. rewrite <- Hsafe in Hdir.
  assert (Hparent : exists es, lookup fs2 (path_components (posixpath.dirname safe))
                               = Some (Dir es)).
  { destruct Hdir as [[H1 H2] | (c0 & _ & H1)].
    - exfalso. rewrite H1 in Hw.
      pose proof (makedirs_in_dir _ _ _ _ _ Hm) as Hd.
      destruct fs1; simpl in Hw; discriminate.
    - rewrite H1, lookup_app in Hfile.
      destruct (lookup fs2 (path_components (posixpath.dirname safe)))
        as [[t0 d0 | es] |]; try discriminate.
      now exists es. }
  destruct Hparent as [es Hes].
  exists c, safe, es. simpl. unfold fs_lookup. auto.
Qed.

End WriteFailure.

(** ** Analysing what is not a directory *)

Section NotADirectory.

Variables root cwd : string.

(** X15. On an accepted path that holds nothing [folder_analysis] answers
    "Folder not found", and on a regular file "Path is not a directory";
    in both cases nothing is walked and no progress is reported. *)
Theorem folder_analysis_needs_a_directory (folder : FolderAnalysis) (w : world)
    (safe : string) :
  sanitize_path root cwd (folder_path folder) = inr safe ->
  (fs_lookup (fs w) safe = None ->
   folder_analysis root cwd folder w
   = (inr (error_json "Folder not found"),
      emitted w [LogInfo ("Analyzing folder: " ++ folder_path folder);
                 LogError ("Folder not found: " ++ folder_path folder)]))
  /\ (forall t data, fs_lookup (fs w) safe = Some (File t data) ->
      folder_analysis root cwd folder w
      = (inr (error_json "Path is not a directory"),
         emitted w [LogInfo ("Analyzing folder: " ++ folder_path folder);
                    LogError ("Path is not a directory: " ++ folder_path folder)])).
Proof.
  intros Hs. split; [intros E | intros t data E];
    unfold_tool; simpl; rewrite Hs; simpl; repeat (rewrite E; simpl);
    unfold emitted; simpl; now rewrite <- !app_assoc.
Qed.

End NotADirectory.

(** ** Instances *)

Lemma folder_analysis_needs_a_directory_witness :
  let folder := mkFolderAnalysis "a.txt" in
  (fs_lookup (fs small_world) "/allowed/a.txt" = None ->
   folder_analysis "/allowed" "/" folder small_world
   = (inr (error_json "Folder not found"),
      emitted small_world
        [LogInfo ("Analyzing folder: " ++ folder_path folder);
         LogError ("Folder not found: " ++ folder_path folder)]))
  /\ (forall t data, fs_lookup (fs small_world) "/allowed/a.txt" = Some (File t data) ->
      folder_analysis "/allowed" "/" folder small_world
      = (inr (error_json "Path is not a directory"),
         emitted small_world
           [LogInfo ("Analyzing folder: " ++ folder_path folder);
            LogError ("Path is not a directory: " ++ folder_path folder)])).
Proof.
  intros folder.
  apply (folder_analysis_needs_a_directory "/allowed" "/" folder small_world
           "/allowed/a.txt").
  reflexivity.
Defined.

Lemma file_delete_then_gone_witness :
  let op := mkFileOperation "a.txt" None in
  fst (file_read "/allowed" "/" (mkFileOperation (path op) None)
         (snd (file_delete "/allowed" "/" op small_world)))
  = inr (error_json "File not found")
  /\ fst (file_delete "/allowed" "/" (mkFileOperation (path op) None)
            (snd (file_delete "/allowed" "/" op small_world)))
     = inr (error_json "File not found").
Proof.
  intros op.
  apply (file_delete_then_gone "/allowed" "/" op None small_world
           (success_delete "a.txt")).
  - reflexivity.
  - reflexivity.
  - reflexivity.
Defined.

Lemma file_delete_only_regular_files_witness :
  let op := mkFileOperation "notes" None in
  (fs_lookup (fs small_world) "/allowed/notes" = None ->
   fst (file_delete "/allowed" "/" op small_world) = inr (error_json "File not found")
   /\ fs (snd (file_delete "/allowed" "/" op small_world)) = fs small_world)
  /\ (forall es, fs_lookup (fs small_world) "/allowed/notes" = Some (Dir es) ->
      fst (file_delete "/allowed" "/" op small_world)
      = inr (error_json "Path is not a file")
      /\ fs (snd (file_delete "/allowed" "/" op small_world)) = fs small_world).
Proof.
  intros op.
  apply (file_delete_only_regular_files "/allowed" "/" op small_world "/allowed/notes").
  reflexivity.
Defined.

Lemma file_delete_keeps_other_files_witness :
  fs_lookup
    (fs (snd (file_delete "/allowed" "/" (mkFileOperation "a.txt" None) small_world)))
    "/allowed/b.txt"
  = Some (File 2 "beta").
Proof.
  apply (file_delete_keeps_other_files "/allowed" "/"
           (mkFileOperation "a.txt" None) small_world "/allowed/b.txt" 2 "beta").
  - reflexivity.
  - intros safe H. vm_compute in H. injection H as <-. vm_compute. discriminate.
Defined.

Lemma file_write_keeps_other_files_witness :
  fs_lookup
    (fs (snd (file_write "/allowed" "/" (mkFileOperation "notes/new/c.txt" (Some "gamma"))
                small_world)))
    "/allowed/b.txt"
  = Some (File 2 "beta").
Proof.
  apply (file_write_keeps_other_files "/allowed" "/"
           (mkFileOperation "notes/new/c.txt" (Some "gamma")) small_world
           "/allowed/b.txt" 2 "beta").
  - reflexivity.
  - intros safe H. vm_compute in H. injection H as <-. vm_compute. discriminate.
Defined.

Lemma writing_and_deleting_keep_well_formed_witness :
  let op := mkFileOperation "notes/new/c.txt" (Some "gamma") in
  wf_node (fs (snd (file_write "/allowed" "/" op small_world))) = true
  /\ wf_node (fs (snd (file_delete "/allowed" "/" op small_world))) = true.
Proof.
  intros op.
  apply (writing_and_deleting_keep_well_formed "/allowed" "/" op small_world).
  reflexivity.
Defined.

Lemma write_delete_read_witness :
  let w1 := snd (file_write "/allowed" "/"
                   (mkFileOperation "notes/c.txt" (Some "gamma")) small_world) in
  let w2 := snd (file_delete "/allowed" "/" (mkFileOperation "notes/c.txt" None) w1) in
  fst (file_delete "/allowed" "/" (mkFileOperation "notes/c.txt" None) w1)
  = inr (success_delete "notes/c.txt")
  /\ fst (file_read "/allowed" "/" (mkFileOperation "notes/c.txt" None) w2)
     = inr (error_json "File not found").
Proof.
  apply (write_delete_read "/allowed" "/" "notes/c.txt" "gamma" None small_world
           (success_write "notes/c.txt")).
  - reflexivity.
  - reflexivity.
  - reflexivity.
Defined.


Lemma file_write_creates_the_file_witness :
  let op := mkFileOperation "notes/new/c.txt" (Some "gamma") in
  exists (c safe : string) (es : list (string * node)),
    content op = Some c
    /\ sanitize_path "/allowed" "/" (path op) = inr safe
    /\ fs_lookup (fs (snd (file_write "/allowed" "/" op small_world))) safe
       = Some (File (clock small_world) c)
    /\ fs_lookup (fs (snd (file_write "/allowed" "/" op small_world)))
         (posixpath.dirname safe)
       = Some (Dir es).
Proof.
  intros op.
  apply (file_write_creates_the_file "/allowed" "/" op small_world
           (success_write "notes/new/c.txt")).
  - reflexivity.
  - reflexivity.
  - reflexivity.
Defined.
